(** * Carbon Footprint Calculator: the emissions engine of [app.py]

    A shallow embedding of the computational core of [src/app.py]:
    [compute_emissions], the records built by [page_enter_data], the weekly
    check and goal upsert of [page_goals_and_alerts], the monthly rollup of
    [page_history] and the ranking of [page_leaderboard].

    Numbers.  The source computes with Python [float]s and the properties
    are stated up to floating-point tolerance.  Quantities are embedded as
    exact rationals ([Q]): a decimal literal of the source is the rational it
    denotes, [+] and [*] are exact, Python's [==] on numbers is [Qeq] and
    [>] is [Qlt] flipped.  Rounding, infinities and NaN are outside the
    model.

    Dates.  A calendar date is a record of year, month and day; comparison
    and [timedelta] arithmetic are carried out on the proleptic Gregorian
    ordinal ([date.toordinal]), as [datetime.date] defines them.

    Tables.  A SQLite table is the list of its rows in insertion order; a
    pandas frame is the list of its rows in frame order.  The source pins
    no pandas version; where a page depends on it ([page_history]) the
    version is an argument. *)

From Stdlib Require Import List String Ascii Bool ZArith QArith Lia Lqa.
From Stdlib Require Import DecimalString.
From Stdlib Require Import Sorting.Sorted Sorting.Permutation.
Import ListNotations.

Local Open Scope string_scope.
Local Open Scope Z_scope.
Local Open Scope Q_scope.

(* ------------------------------------------------------------------ *)
(** * CONFIG *)

Definition EMISSION_FACTORS : list (string * Q) :=
  [ ("Car (Petrol)", 0.192);
    ("Car (Diesel)", 0.171);
    ("Motorbike", 0.103);
    ("Matatu/Bus", 0.105);
    ("Bicycle/Walking", 0.0) ].

Definition ELECTRICITY_FACTOR : Q := 0.18.
Definition LPG_FACTOR : Q := 3.0.

(** [d.get(key, default)] of a dict written as its list of items. *)
Fixpoint dict_get {V : Type} (d : list (string * V)) (key : string)
         (default : V) : V :=
  match d with
  | [] => default
  | (k, v) :: d' => if String.eqb k key then v else dict_get d' key default
  end.

(** [list(d.keys())] *)
Definition dict_keys {V : Type} (d : list (string * V)) : list string :=
  map fst d.

(* ------------------------------------------------------------------ *)
(** * HELPERS: [compute_emissions] *)

(** The dict returned by [compute_emissions]. *)
Module Em.
Record t : Type := mk
  { transport_emission : Q;
    electricity_emission : Q;
    lpg_emission : Q;
    total_emission : Q }.
End Em.

Definition compute_emissions (distance_km : Q) (transport_mode : string)
           (electricity_kwh lpg_kg : Q) : Em.t :=
  let tf := dict_get EMISSION_FACTORS transport_mode 0.0 in
  let t_e := distance_km * tf in
  let e_e := electricity_kwh * ELECTRICITY_FACTOR in
  let l_e := lpg_kg * LPG_FACTOR in
  let total := t_e + e_e + l_e in
  {| Em.transport_emission := t_e;
     Em.electricity_emission := e_e;
     Em.lpg_emission := l_e;
     Em.total_emission := total |}.

(* ------------------------------------------------------------------ *)
(** * Dates ([datetime.date]) *)

Record Date : Type := mkDate { year : Z; month : Z; day : Z }.

Definition is_leap (y : Z) : bool :=
  ((y mod 4 =? 0) && (negb (y mod 100 =? 0) || (y mod 400 =? 0)))%Z.

(** [_days_before_year]: days before January 1st of year [y]. *)
Definition days_before_year (y : Z) : Z :=
  (let y1 := y - 1 in y1 * 365 + y1 / 4 - y1 / 100 + y1 / 400)%Z.

(** [_DAYS_BEFORE_MONTH], for a non-leap year. *)
Definition DAYS_BEFORE_MONTH (m : Z) : Z :=
  match m with
  | 1 => 0 | 2 => 31 | 3 => 59 | 4 => 90 | 5 => 120 | 6 => 151
  | 7 => 181 | 8 => 212 | 9 => 243 | 10 => 273 | 11 => 304 | _ => 334
  end%Z.

Definition days_before_month (y m : Z) : Z :=
  (DAYS_BEFORE_MONTH m + (if (2 <? m) && is_leap y then 1 else 0))%Z.

(** [date.toordinal()]: 0001-01-01 is day 1. *)
Definition toordinal (d : Date) : Z :=
  (days_before_year (year d) + days_before_month (year d) (month d) + day d)%Z.

(** [date.weekday()]: Monday is 0, Sunday is 6. *)
Definition weekday (d : Date) : Z := ((toordinal d + 6) mod 7)%Z.

(** [d1 <= d2] on dates. *)
Definition date_leb (d1 d2 : Date) : bool := (toordinal d1 <=? toordinal d2)%Z.

(** [df['date'].dt.to_period("M")]: the calendar month of a date, as the
    number of months since year 0; [to_timestamp] gives its first day. *)
Definition to_period_M (d : Date) : Z := (year d * 12 + (month d - 1))%Z.

Definition to_timestamp (p : Z) : Date :=
  {| year := (p / 12)%Z; month := (p mod 12 + 1)%Z; day := 1%Z |}.

Definition valid_month (d : Date) : Prop := (1 <= month d <= 12)%Z.

(** The ordinal of [d - datetime.timedelta(days=k)]. *)
Definition minus_days (d : Date) (k : Z) : Z := (toordinal d - k)%Z.

(* ------------------------------------------------------------------ *)
(** * Frames: the pandas operations the pages use *)

Module Pandas.

Section Frame.
Context {A : Type}.

(** [df[col].sum()] *)
Definition sum_col (col : A -> Q) (df : list A) : Q :=
  fold_left Qplus (map col df) 0.

(** [df.empty] *)
Definition empty (df : list A) : bool :=
  match df with [] => true | _ :: _ => false end.

(** [df.head(n)] *)
Definition head (n : nat) (df : list A) : list A := firstn n df.

(** [df.tail(n)] *)
Definition tail (n : nat) (df : list A) : list A :=
  skipn (List.length df - n) df.

(** [df[col].mean()], for a frame with rows (the pages stop at
    "No data yet" on an empty frame before they take a mean). *)
Definition mean (col : A -> Q) (df : list A) : Q :=
  sum_col col df / inject_Z (Z.of_nat (List.length df)).

(** [df.sort_values(col)]: ascending, by insertion; the order of ties
    is that of the frame. *)
Section Sort.
Variable leb : A -> A -> bool.

Fixpoint insert_sorted (x : A) (l : list A) : list A :=
  match l with
  | [] => [x]
  | y :: l' => if leb x y then x :: l else y :: insert_sorted x l'
  end.

Definition sort (df : list A) : list A :=
  fold_right insert_sorted [] df.
End Sort.

Definition sort_values (col : A -> Q) (df : list A) : list A :=
  sort (fun r1 r2 => Qle_bool (col r1) (col r2)) df.
End Frame.

(** [df.groupby(key)]: the groups are the distinct non-null keys, in
    ascending key order ([sort=True]); rows whose key is null belong to no
    group ([dropna=True]). *)
Section GroupBy.
Context {A K : Type}.
Variable K_eq_dec : forall a b : K, {a = b} + {a <> b}.
Variable K_leb : K -> K -> bool.
Variable key : A -> option K.

Fixpoint dropna (l : list (option K)) : list K :=
  match l with
  | [] => []
  | Some k :: l' => k :: dropna l'
  | None :: l' => dropna l'
  end.

Definition group_keys (df : list A) : list K :=
  sort K_leb (nodup K_eq_dec (dropna (map key df))).

Definition in_group (k : K) (r : A) : bool :=
  match key r with
  | Some k' => if K_eq_dec k' k then true else false
  | None => false
  end.

Definition get_group (k : K) (df : list A) : list A :=
  filter (in_group k) df.

(** [df.groupby(key).agg(f).reset_index()]: one row per group, the key
    and the aggregate of the group's rows. *)
Definition groupby_agg {B : Type} (f : list A -> B) (df : list A)
  : list (K * B) :=
  map (fun k => (k, f (get_group k df))) (group_keys df).
End GroupBy.

(** [col.fillna(v)] on one cell. *)
Definition fillna {V : Type} (v : V) (cell : option V) : V :=
  match cell with Some x => x | None => v end.

End Pandas.

(* ------------------------------------------------------------------ *)
(** * LOCAL SQLITE: the [daily_emissions] and [user_goals] tables *)

(** A record of [daily_emissions] (the dict built by [page_enter_data]);
    [None] is SQL NULL. *)
Record Entry : Type := mkEntry
  { user_id : option string;
    alias : option string;
    date : Date;
    transport_mode : string;
    distance : Q;
    electricity : Q;
    lpg : Q;
    transport_emission : Q;
    electricity_emission : Q;
    lpg_emission : Q;
    total_emission : Q;
    notes : string }.

(** A row of [user_goals]; the code only ever writes [float(target)] to
    [weekly_target]. *)
Record GoalRow : Type := mkGoal
  { goal_user_id : option string;
    weekly_target : Q }.

(** Truth value of a [user_id]: [None] and the empty string are falsy. *)
Definition truthy (u : option string) : bool :=
  match u with
  | Some s => negb (String.eqb s "")
  | None => false
  end.

(** SQL [column = ?]: never true when either side is NULL. *)
Definition sql_eq (column param : option string) : bool :=
  match column, param with
  | Some a, Some b => String.eqb a b
  | _, _ => false
  end.

Definition insert_local (table : list Entry) (record : Entry) : list Entry :=
  table ++ [record].

(** [ORDER BY date ASC] *)
Definition order_by_date (rows : list Entry) : list Entry :=
  Pandas.sort (fun r1 r2 => date_leb (date r1) (date r2)) rows.

Definition fetch_all_local_for_user (table : list Entry)
           (uid : option string) : list Entry :=
  if truthy uid
  then order_by_date (filter (fun r => sql_eq (user_id r) uid) table)
  else order_by_date table.

(** The two stores.  [insert_supabase] succeeds when a client is
    configured and the remote insert does not raise; that outcome is the
    argument [accepted]. *)
Record Stores : Type := mkStores
  { supabase_rows : list Entry;
    sqlite_rows : list Entry }.

Definition insert_supabase (accepted : bool) (s : Stores) (record : Entry)
  : Stores * bool :=
  if accepted
  then ({| supabase_rows := supabase_rows s ++ [record];
           sqlite_rows := sqlite_rows s |}, true)
  else (s, false).

(** [if not insert_supabase(record): insert_local(record)] *)
Definition store_record (accepted : bool) (s : Stores) (record : Entry)
  : Stores :=
  let (s', ok) := insert_supabase accepted s record in
  if negb ok
  then {| supabase_rows := supabase_rows s';
          sqlite_rows := insert_local (sqlite_rows s') record |}
  else s'.

(* ------------------------------------------------------------------ *)
(** * PAGES: [page_enter_data] *)

(** The widgets of the entry form. *)
Record Form : Type := mkForm
  { form_alias : string;
    form_date : Date;
    form_distance : Q;
    form_transport_mode : string;
    form_electricity : Q;
    form_lpg : Q;
    form_notes : string }.

(** The [record] dict of the "Save entry" branch. *)
Definition form_record (uid : option string) (f : Form) : Entry :=
  let em := compute_emissions (form_distance f) (form_transport_mode f)
                              (form_electricity f) (form_lpg f) in
  {| user_id := uid;
     alias := Some (form_alias f);
     date := form_date f;
     transport_mode := form_transport_mode f;
     distance := form_distance f;
     electricity := form_electricity f;
     lpg := form_lpg f;
     transport_emission := Em.transport_emission em;
     electricity_emission := Em.electricity_emission em;
     lpg_emission := Em.lpg_emission em;
     total_emission := Em.total_emission em;
     notes := form_notes f |}.

Definition save_entry (accepted : bool) (s : Stores) (uid : option string)
           (f : Form) : Stores :=
  store_record accepted s (form_record uid f).

(** One row of an uploaded CSV.  A cell that [pd.to_datetime] or [float]
    rejects is [None] (the conversion raises); [csv_alias] is [None] when
    the file has no alias column and [Some None] for an empty cell. *)
Record CsvRow : Type := mkCsvRow
  { csv_date : option Date;
    csv_distance : option Q;
    csv_transport_mode : string;
    csv_electricity : option Q;
    csv_lpg : option Q;
    csv_alias : option (option string);
    csv_notes : option string }.

(** The [rec] dict of the import loop; [None] when the [try] body raises. *)
Definition csv_record (uid : option string) (form_alias0 : string)
           (row : CsvRow) : option Entry :=
  match csv_date row, csv_distance row, csv_electricity row, csv_lpg row with
  | Some d, Some dist, Some el, Some lp =>
      let em := compute_emissions dist (csv_transport_mode row) el lp in
      Some {| user_id := uid;
              alias := match csv_alias row with
                       | Some a => a
                       | None => Some form_alias0
                       end;
              date := d;
              transport_mode := csv_transport_mode row;
              distance := dist;
              electricity := el;
              lpg := lp;
              transport_emission := Em.transport_emission em;
              electricity_emission := Em.electricity_emission em;
              lpg_emission := Em.lpg_emission em;
              total_emission := Em.total_emission em;
              notes := match csv_notes row with
                       | Some n => n
                       | None => ""
                       end |}
  | _, _, _, _ => None
  end.

Definition required : list string :=
  ["date"; "distance"; "transport_mode"; "electricity"; "lpg"].

Definition missing (columns : list string) : list string :=
  filter (fun c => negb (existsb (String.eqb c) columns)) required.

(** The import loop: every row comes with the outcome of its remote
    insert; the result is the stores and [count]. *)
Fixpoint import_rows (uid : option string) (form_alias0 : string)
         (rows : list (CsvRow * bool)) (s : Stores) (count : nat)
  : Stores * nat :=
  match rows with
  | [] => (s, count)
  | (row, accepted) :: rows' =>
      match csv_record uid form_alias0 row with
      | Some rec =>
          import_rows uid form_alias0 rows' (store_record accepted s rec)
                      (S count)
      | None => import_rows uid form_alias0 rows' s count
      end
  end.

Definition import_csv (uid : option string) (form_alias0 : string)
           (columns : list string) (rows : list (CsvRow * bool)) (s : Stores)
  : Stores * nat :=
  match missing columns with
  | [] => import_rows uid form_alias0 rows s 0
  | _ :: _ => (s, 0%nat)
  end.

(** What a user can do on the page, and a session of such actions. *)
Inductive Action : Type :=
| SaveEntry (accepted : bool) (uid : option string) (f : Form)
| UploadCsv (uid : option string) (form_alias0 : string)
            (columns : list string) (rows : list (CsvRow * bool)).

Definition step (s : Stores) (a : Action) : Stores :=
  match a with
  | SaveEntry accepted uid f => save_entry accepted s uid f
  | UploadCsv uid al columns rows => fst (import_csv uid al columns rows s)
  end.

Definition run (actions : list Action) (s : Stores) : Stores :=
  fold_left step actions s.

Definition no_entries : Stores := {| supabase_rows := []; sqlite_rows := [] |}.

(* ------------------------------------------------------------------ *)
(** * PAGES: [page_goals_and_alerts] *)

Inductive GoalStatus : Type := WITHIN_TARGET | EXCEEDED.

(** [SELECT weekly_target FROM user_goals WHERE user_id=?] and [fetchone] *)
Definition select_weekly_target (goals : list GoalRow) (uid : option string)
  : option Q :=
  match filter (fun r => sql_eq (goal_user_id r) uid) goals with
  | r :: _ => Some (weekly_target r)
  | [] => None
  end.

Definition current_target (goals : list GoalRow) (uid : option string)
  : option Q :=
  if truthy uid then select_weekly_target goals uid else None.

(** [current or default]: [None] and [0.0] are falsy. *)
Definition or_default (current : option Q) (default : Q) : Q :=
  match current with
  | Some c => if Qeq_bool c 0 then default else c
  | None => default
  end.

(** [st.number_input(..., value=v)]: what the user typed, [v] when the
    widget was left untouched. *)
Definition number_input (typed : option Q) (value : Q) : Q :=
  match typed with
  | Some v => v
  | None => value
  end.

(** The "Save target" branch. *)
Definition save_target (goals : list GoalRow) (uid : option string)
           (current : option Q) (target : Q) : list GoalRow :=
  match current with
  | None => goals ++ [{| goal_user_id := uid; weekly_target := target |}]
  | Some _ =>
      map (fun r => if sql_eq (goal_user_id r) uid
                    then {| goal_user_id := goal_user_id r;
                            weekly_target := target |}
                    else r) goals
  end.

(** [today - timedelta(days=today.weekday())], as an ordinal. *)
Definition start_week (today : Date) : Z := minus_days today (weekday today).

Definition in_week (today : Date) (r : Entry) : bool :=
  ((start_week today <=? toordinal (date r))
   && (toordinal (date r) <=? toordinal today))%Z.

Definition week_df (today : Date) (df : list Entry) : list Entry :=
  filter (in_week today) df.

Definition weekly_total (today : Date) (df : list Entry) : Q :=
  Pandas.sum_col total_emission (week_df today df).

(** [if weekly_total > target: ... else: ...] *)
Definition goal_status (total target : Q) : GoalStatus :=
  if Qlt_le_dec target total then EXCEEDED else WITHIN_TARGET.

(** What one run of the page shows and leaves behind. *)
Record GoalsView : Type := mkGoalsView
  { view_target : Q;
    view_goals : list GoalRow;
    view_check : option (Q * GoalStatus) }.

Definition page_goals_and_alerts (goals : list GoalRow) (table : list Entry)
           (uid : option string) (typed : option Q) (save_clicked : bool)
           (today : Date) : GoalsView :=
  let current := current_target goals uid in
  let target := number_input typed (or_default current 20.0) in
  let goals' := if save_clicked then save_target goals uid current target
                else goals in
  let df := fetch_all_local_for_user table uid in
  {| view_target := target;
     view_goals := goals';
     view_check :=
       if Pandas.empty df then None
       else let total := weekly_total today df in
            Some (total, goal_status total target) |}.

(** A sequence of runs of the page in which "Save target" is clicked, each
    by some session ([user_id]) with some state of the target widget. *)
Definition save_click (table : list Entry) (today : Date)
           (goals : list GoalRow) (c : option string * option Q)
  : list GoalRow :=
  view_goals (page_goals_and_alerts goals table (fst c) (snd c) true today).

Definition save_clicks (table : list Entry) (today : Date)
           (cs : list (option string * option Q)) (goals : list GoalRow)
  : list GoalRow :=
  fold_left (save_click table today) cs goals.

(** Number of goal rows of a user id. *)
Definition goal_rows (uid : option string) (goals : list GoalRow) : nat :=
  List.length (filter (fun r =>
                         match goal_user_id r, uid with
                         | Some a, Some b => String.eqb a b
                         | None, None => true
                         | _, _ => false
                         end) goals).

(* ------------------------------------------------------------------ *)
(** * PAGES: [page_leaderboard] *)

(** [df_all[df_all['date'] >= today - timedelta(days=7)]] *)
Definition in_last_7_days (today : Date) (r : Entry) : bool :=
  (minus_days today 7 <=? toordinal (date r))%Z.

(** Lines 323 to 330, on the frame [df_all]: rows of alias and
    [weekly_total_kgCO2]. *)
Definition leaderboard (today : Date) (df_all : list Entry)
  : list (string * Q) :=
  let week := filter (in_last_7_days today) df_all in
  let agg := Pandas.groupby_agg string_dec String.leb alias
                                (Pandas.sum_col total_emission) week in
  (* [reset_index] makes the group keys the alias column; [fillna] then
     runs over that column *)
  let agg := map (fun row => (Pandas.fillna "Anonymous" (Some (fst row)),
                              snd row)) agg in
  let agg := Pandas.sort_values snd agg in
  Pandas.head 10 agg.

Definition page_leaderboard (table : list Entry) (today : Date)
  : option (list (string * Q)) :=
  let df_all := fetch_all_local_for_user table None in
  if Pandas.empty df_all then None else Some (leaderboard today df_all).

(** The ranking in the words of the specification: null aliases are
    coerced to "Anonymous", then the rows are grouped by alias, summed,
    sorted ascending and cut at 10. *)
Definition spec_leaderboard (today : Date) (df_all : list Entry)
  : list (string * Q) :=
  let week := filter (in_last_7_days today) df_all in
  let agg := Pandas.groupby_agg string_dec String.leb
               (fun r => Some (Pandas.fillna "Anonymous" (alias r)))
               (Pandas.sum_col total_emission) week in
  Pandas.head 10 (Pandas.sort_values snd agg).

(* ------------------------------------------------------------------ *)
(** * PAGES: [page_history] *)

(** The sums of the real-valued columns over a group of rows (the
    surrogate key [id] is not modelled). *)
Record Sums : Type := mkSums
  { sum_distance : Q;
    sum_electricity : Q;
    sum_lpg : Q;
    sum_transport_emission : Q;
    sum_electricity_emission : Q;
    sum_lpg_emission : Q;
    sum_total_emission : Q }.

Definition sums (g : list Entry) : Sums :=
  {| sum_distance := Pandas.sum_col distance g;
     sum_electricity := Pandas.sum_col electricity g;
     sum_lpg := Pandas.sum_col lpg g;
     sum_transport_emission := Pandas.sum_col transport_emission g;
     sum_electricity_emission := Pandas.sum_col electricity_emission g;
     sum_lpg_emission := Pandas.sum_col lpg_emission g;
     sum_total_emission := Pandas.sum_col total_emission g |}.

Definition period_of (r : Entry) : option Z := Some (to_period_M (date r)).

(** The rows of [df.groupby(df['date'].dt.to_period("M")).sum()
    .reset_index()] when the sum leaves the non-numeric columns out: the
    month and the sums of its rows. *)
Definition monthly_rollup (df : list Entry) : list (Z * Sums) :=
  Pandas.groupby_agg Z.eq_dec Z.leb period_of sums df.

(** [df_monthly] after [to_timestamp]. *)
Definition df_monthly (df : list Entry) : list (Date * Sums) :=
  map (fun row => (to_timestamp (fst row), snd row)) (monthly_rollup df).

(** The source pins no pandas version, and line 258 depends on it.  The
    frame it sums holds, next to the numeric columns, the text columns and
    the [date] column, which line 256 made datetime64.  Before pandas 2.0
    [DataFrameGroupBy.sum] leaves the non-numeric columns out; from 2.0 on
    [numeric_only] defaults to [False], every column is summed, and
    datetime64 does not support sum: the call raises [TypeError]. *)
Inductive PandasVersion : Type := pandas_before_2 | pandas_from_2.

(** What a call gives: a value, or an uncaught [TypeError]. *)
Inductive Outcome (A : Type) : Type :=
| Returns (a : A)
| Raises_TypeError.

Arguments Returns {A} a.
Arguments Raises_TypeError {A}.

(** Line 258 on a frame with rows. *)
Definition monthly_sum (v : PandasVersion) (df : list Entry)
  : Outcome (list (Z * Sums)) :=
  match v with
  | pandas_before_2 => Returns (monthly_rollup df)
  | pandas_from_2 => Raises_TypeError
  end.

(** The page up to the monthly chart: [None] when it stops at
    "No data yet", otherwise [df_monthly] or the error of line 258. *)
Definition page_history (v : PandasVersion) (table : list Entry)
           (uid : option string) : option (Outcome (list (Date * Sums))) :=
  let df := fetch_all_local_for_user table uid in
  if Pandas.empty df then None
  else
    Some match monthly_sum v df with
         | Returns rows =>
             Returns (map (fun row => (to_timestamp (fst row), snd row)) rows)
         | Raises_TypeError => Raises_TypeError
         end.

(** Whether the [try] body of the import loop gets through the
    conversions of a row. *)
Definition row_converts (row : CsvRow) : bool :=
  match csv_date row, csv_distance row, csv_electricity row, csv_lpg row with
  | Some _, Some _, Some _, Some _ => true
  | _, _, _, _ => false
  end.


(* ------------------------------------------------------------------ *)
(** * PAGES: [page_insights] *)

(** The two metrics and, when tips are asked for, the (date, total) pairs
    of [df.tail(7)] that the prompt lists; the text of the prompt and the
    answer of the service are not modelled. *)
Record Insights : Type := mkInsights
  { total_saved : Q;
    avg_per_entry : Q;
    tips_summary : option (list (Date * Q)) }.

Definition page_insights (table : list Entry) (uid : option string)
           (OPENAI_AVAILABLE get_tips_clicked : bool) : option Insights :=
  let df := fetch_all_local_for_user table uid in
  if Pandas.empty df then None
  else
    Some {| total_saved := Pandas.sum_col total_emission df;
            avg_per_entry := Pandas.mean total_emission df;
            tips_summary :=
              if OPENAI_AVAILABLE
              then if get_tips_clicked
                   then Some (map (fun r => (date r, total_emission r))
                                  (Pandas.tail 7 df))
                   else None
              else None |}.

(* ------------------------------------------------------------------ *)
(** * AUTH: [supabase_sign_in_ui] *)

(** The user dict of a session. *)
Record User : Type := mkUser
  { user_dict_id : string;
    user_dict_email : option string }.

(** The keys 'user' and 'user_id' of [st.session_state]: a key is absent
    ([None]) or holds a value, which may be Python's [None]. *)
Record Session : Type := mkSession
  { ss_user : option (option User);
    ss_user_id : option (option string) }.

Definition fresh_session : Session :=
  {| ss_user := None; ss_user_id := None |}.

(** [st.session_state.get('user_id')] *)
Definition session_user_id (ss : Session) : option string :=
  match ss_user_id ss with
  | Some v => v
  | None => None
  end.

(** [f"guest-{os.getpid()}"] *)
Definition guest_id (pid : nat) : string :=
  "guest-" ++ NilEmpty.string_of_uint (Nat.to_uint pid).

(** The sidebar widgets of one run: the email field and the three
    buttons. *)
Record SignInWidgets : Type := mkSignInWidgets
  { email_input : string;
    send_magic_link : bool;
    continue_as_guest : bool;
    sign_out : bool }.

(** One run of [supabase_sign_in_ui]; [supabase] tells whether a client
    is configured.  Sending the magic link only calls the remote service
    (and reports what it raises): it writes nothing to the session. *)
Definition supabase_sign_in_ui (supabase : bool) (pid : nat)
           (w : SignInWidgets) (ss : Session) : Session :=
  if negb supabase then ss
  else
    let ss := match ss_user ss with
              | None => {| ss_user := Some None; ss_user_id := Some None |}
              | Some _ => ss
              end in
    match ss_user ss with
    | Some (Some _) =>
        if sign_out w
        then {| ss_user := Some None; ss_user_id := Some None |}
        else ss
    | _ =>
        if continue_as_guest w
        then {| ss_user := Some (Some (mkUser (guest_id pid) None));
                ss_user_id := Some (Some (guest_id pid)) |}
        else ss
    end.

(** The sessions a browser can reach: any number of runs of the sidebar. *)
Definition sign_in_runs (supabase : bool) (pid : nat)
           (ws : list SignInWidgets) (ss : Session) : Session :=
  fold_left (fun ss w => supabase_sign_in_ui supabase pid w ss) ws ss.

(* ------------------------------------------------------------------ *)
(** * Predicates and sample data *)

(** The order relation of a boolean comparison. *)
Definition le_of {A : Type} (leb : A -> A -> bool) : A -> A -> Prop :=
  fun x y => leb x y = true.

(** The invariant of an entry. *)
Definition sums_up (r : Entry) : Prop :=
  total_emission r
  = transport_emission r + electricity_emission r + lpg_emission r.

Definition all_sum_up (s : Stores) : Prop :=
  Forall sums_up (supabase_rows s) /\ Forall sums_up (sqlite_rows s).

Definition wednesday : Date := mkDate 2026 11 4.

(** An entry with the given date and total, all else blank. *)
Definition entry_on (d : Date) (total : Q) : Entry :=
  {| user_id := None; alias := Some ""; date := d;
     transport_mode := "Bicycle/Walking";
     distance := 0; electricity := 0; lpg := 0;
     transport_emission := 0; electricity_emission := 0; lpg_emission := 0;
     total_emission := total; notes := "" |}.

Definition petrol_form : Form :=
  {| form_alias := "amina"; form_date := mkDate 2026 11 2;
     form_distance := 10; form_transport_mode := "Car (Petrol)";
     form_electricity := 0; form_lpg := 0; form_notes := "" |}.

Definition diesel_row : CsvRow :=
  {| csv_date := Some (mkDate 2026 11 4); csv_distance := Some 0;
     csv_transport_mode := "Car (Diesel)"; csv_electricity := Some 5;
     csv_lpg := Some 0; csv_alias := Some None; csv_notes := None |}.

Definition bad_row : CsvRow :=
  {| csv_date := Some (mkDate 2026 11 4); csv_distance := None;
     csv_transport_mode := "Motorbike"; csv_electricity := Some 5;
     csv_lpg := Some 0; csv_alias := None; csv_notes := None |}.

Definition guest : option string := Some "guest-4242".

Definition two_anonymous_saves : list (option string * option Q) :=
  [(None, Some 10); (None, Some 15)].

Definition sample_bob (total : Q) : Entry :=
  mkEntry None (Some "bob") wednesday "Motorbike" 0 0 0 0 0 0 total "".

(** Dated exactly 8 days before [wednesday]. *)
Definition sample_old : Entry :=
  mkEntry None (Some "bob") (mkDate 2026 10 27) "Motorbike" 0 0 0 0 0 0 50 "".

(* ================================================================== *)
(** * Facts about the frame operations *)

Section FrameFacts.
Context {A : Type}.

Lemma fold_left_Qplus_acc (l : list Q) (a : Q) :
  fold_left Qplus l a == a + fold_left Qplus l 0.
Proof.
  revert a; induction l as [|x l IH]; intros a; simpl.
  - ring.
  - rewrite (IH (a + x)), (IH (0 + x)). ring.
Qed.

Lemma sum_col_nil (col : A -> Q) : Pandas.sum_col col [] = 0.
Proof. reflexivity. Qed.

Lemma sum_col_cons (col : A -> Q) (r : A) (df : list A) :
  Pandas.sum_col col (r :: df) == col r + Pandas.sum_col col df.
Proof.
  unfold Pandas.sum_col; simpl.
  rewrite fold_left_Qplus_acc. ring.
Qed.

Lemma sum_col_app (col : A -> Q) (df1 df2 : list A) :
  Pandas.sum_col col (df1 ++ df2)
  == Pandas.sum_col col df1 + Pandas.sum_col col df2.
Proof.
  induction df1 as [|r df1 IH]; simpl.
  - rewrite sum_col_nil. ring.
  - rewrite !sum_col_cons, IH. ring.
Qed.

Lemma filter_remove_false (p : A -> bool) (l1 l2 : list A) (r : A) :
  p r = false -> filter p (l1 ++ r :: l2) = filter p (l1 ++ l2).
Proof.
  intros Hr. rewrite !filter_app. simpl. now rewrite Hr.
Qed.

Lemma sum_col_filter_remove_true (col : A -> Q) (p : A -> bool)
      (l1 l2 : list A) (r : A) :
  p r = true ->
  Pandas.sum_col col (filter p (l1 ++ r :: l2))
  == Pandas.sum_col col (filter p (l1 ++ l2)) + col r.
Proof.
  intros Hr. rewrite !filter_app. simpl. rewrite Hr.
  rewrite !sum_col_app, sum_col_cons. ring.
Qed.

(** ** Insertion sort *)
Section SortFacts.
Variable leb : A -> A -> bool.

Lemma insert_sorted_perm (x : A) (l : list A) :
  Permutation (x :: l) (Pandas.insert_sorted leb x l).
Proof.
  induction l as [|y l IH]; simpl.
  - apply Permutation_refl.
  - destruct (leb x y).
    + apply Permutation_refl.
    + eapply perm_trans; [apply perm_swap|].
      now apply perm_skip.
Qed.

Lemma sort_perm (l : list A) : Permutation l (Pandas.sort leb l).
Proof.
  induction l as [|x l IH]; simpl.
  - constructor.
  - eapply perm_trans; [|apply insert_sorted_perm].
    now apply perm_skip.
Qed.

Lemma sort_In (l : list A) (x : A) : In x (Pandas.sort leb l) <-> In x l.
Proof.
  split; apply Permutation_in;
    [apply Permutation_sym|]; apply sort_perm.
Qed.

Lemma sort_length (l : list A) :
  List.length (Pandas.sort leb l) = List.length l.
Proof. symmetry. apply Permutation_length, sort_perm. Qed.

Hypothesis leb_total : forall x y, leb x y = true \/ leb y x = true.

Lemma insert_sorted_Sorted (x : A) (l : list A) :
  Sorted (le_of leb) l -> Sorted (le_of leb) (Pandas.insert_sorted leb x l).
Proof.
  induction l as [|y l IH]; simpl; intros Hs.
  - repeat constructor.
  - destruct (leb x y) eqn:Hxy.
    + constructor; [assumption|]. constructor. exact Hxy.
    + assert (Hyx : leb y x = true)
        by (destruct (leb_total x y); congruence).
      inversion Hs as [|? ? Hs' Hhd]; subst.
      constructor; [now apply IH|].
      destruct l as [|z l]; simpl.
      * constructor. exact Hyx.
      * destruct (leb x z); constructor; try exact Hyx.
        now inversion Hhd.
Qed.

Lemma sort_Sorted (l : list A) : Sorted (le_of leb) (Pandas.sort leb l).
Proof.
  induction l as [|x l IH]; simpl.
  - constructor.
  - now apply insert_sorted_Sorted.
Qed.
End SortFacts.

Lemma Sorted_weaken (R R' : A -> A -> Prop) (l : list A) :
  (forall x y, R x y -> R' x y) -> Sorted R l -> Sorted R' l.
Proof.
  intros HR Hs. induction Hs as [|x l Hs IH Hhd].
  - constructor.
  - constructor; [exact IH|].
    destruct Hhd; constructor. now apply HR.
Qed.




End FrameFacts.

Section GroupByFacts.
Context {A K : Type}.
Variable K_eq_dec : forall a b : K, {a = b} + {a <> b}.
Variable K_leb : K -> K -> bool.
Variable key : A -> option K.

Lemma dropna_In (l : list (option K)) (k : K) :
  In k (Pandas.dropna l) <-> In (Some k) l.
Proof.
  induction l as [|[k'|] l IH]; simpl.
  - tauto.
  - rewrite IH. split; intros [H|H]; auto; left; congruence.
  - rewrite IH. split; [auto|]. intros [H|H]; [discriminate|auto].
Qed.

Lemma group_keys_In (df : list A) (k : K) :
  In k (Pandas.group_keys K_eq_dec K_leb key df)
  <-> exists r, In r df /\ key r = Some k.
Proof.
  unfold Pandas.group_keys.
  rewrite sort_In, nodup_In, dropna_In, in_map_iff.
  split; intros [r [H1 H2]]; exists r; auto.
Qed.

Lemma group_keys_NoDup (df : list A) :
  NoDup (Pandas.group_keys K_eq_dec K_leb key df).
Proof.
  unfold Pandas.group_keys.
  eapply Permutation_NoDup; [apply sort_perm|]. apply NoDup_nodup.
Qed.

Lemma in_group_true (k : K) (r : A) :
  Pandas.in_group K_eq_dec key k r = true <-> key r = Some k.
Proof.
  unfold Pandas.in_group. destruct (key r) as [k'|].
  - destruct (K_eq_dec k' k); split; congruence.
  - split; discriminate.
Qed.

Lemma groupby_agg_keys {B : Type} (f : list A -> B) (df : list A) :
  map fst (Pandas.groupby_agg K_eq_dec K_leb key f df)
  = Pandas.group_keys K_eq_dec K_leb key df.
Proof.
  unfold Pandas.groupby_agg. rewrite map_map. simpl. apply map_id.
Qed.

Lemma groupby_agg_In {B : Type} (f : list A -> B) (df : list A)
      (k : K) (b : B) :
  In (k, b) (Pandas.groupby_agg K_eq_dec K_leb key f df)
  <-> (exists r, In r df /\ key r = Some k)
      /\ b = f (Pandas.get_group K_eq_dec key k df).
Proof.
  unfold Pandas.groupby_agg. rewrite in_map_iff, <- group_keys_In.
  split.
  - intros [k' [Heq Hin]]. inversion Heq; subst. auto.
  - intros [Hin ->]. exists k. auto.
Qed.

(** A row whose key is null is in no group and adds no group. *)
Lemma groupby_agg_null {B : Type} (f : list A -> B) (l1 l2 : list A)
      (r : A) :
  key r = None ->
  Pandas.groupby_agg K_eq_dec K_leb key f (l1 ++ r :: l2)
  = Pandas.groupby_agg K_eq_dec K_leb key f (l1 ++ l2).
Proof.
  intros Hr. unfold Pandas.groupby_agg, Pandas.group_keys, Pandas.get_group.
  assert (Hk : Pandas.dropna (map key (l1 ++ r :: l2))
               = Pandas.dropna (map key (l1 ++ l2))).
  { induction l1 as [|x l1 IH]; simpl.
    - now rewrite Hr.
    - destruct (key x); now rewrite IH. }
  rewrite Hk. apply map_ext. intros k. do 2 f_equal.
  apply filter_remove_false.
  unfold Pandas.in_group. now rewrite Hr.
Qed.
End GroupByFacts.

(* ================================================================== *)
(** * [compute_emissions] *)

Lemma dict_get_In {V : Type} (d : list (string * V)) (k : string)
      (v default : V) :
  NoDup (dict_keys d) -> In (k, v) d -> dict_get d k default = v.
Proof.
  unfold dict_keys.
  induction d as [|[k' v'] d IH]; simpl; intros Hnd Hin; [tauto|].
  inversion Hnd as [|? ? Hk' Hnd']; subst.
  destruct Hin as [Heq|Hin].
  - inversion Heq; subst. now rewrite String.eqb_refl.
  - destruct (String.eqb_spec k' k) as [->|_].
    + exfalso. apply Hk'. apply in_map_iff. now exists (k, v).
    + now apply IH.
Qed.

Lemma dict_get_missing {V : Type} (d : list (string * V)) (k : string)
      (default : V) :
  ~ In k (dict_keys d) -> dict_get d k default = default.
Proof.
  unfold dict_keys.
  induction d as [|[k' v'] d IH]; simpl; intros Hk; [reflexivity|].
  destruct (String.eqb_spec k' k) as [->|_].
  - exfalso. auto.
  - apply IH. auto.
Qed.

Lemma EMISSION_FACTORS_keys_NoDup : NoDup (dict_keys EMISSION_FACTORS).
Proof.
  unfold dict_keys; simpl.
  repeat (constructor; [simpl; intros H;
                        repeat (destruct H as [H|H]; [discriminate|]);
                        exact H|]).
  constructor.
Qed.

(** C1. For every distance [d], electricity [e], LPG quantity [l] (in
    particular the non-negative ones) and every transport mode [m] that the
    emission-factor table maps to [f], [compute_emissions] returns
    [transport_emission = d * f], [electricity_emission = e * 0.18],
    [lpg_emission = l * 3.0], and a [total_emission] that is the sum of
    those three. *)
Theorem compute_emissions_known (d e l : Q) (m : string) (f : Q) :
  In (m, f) EMISSION_FACTORS ->
  let r := compute_emissions d m e l in
  Em.transport_emission r = d * f
  /\ Em.electricity_emission r = e * 0.18
  /\ Em.lpg_emission r = l * 3.0
  /\ Em.total_emission r
     = Em.transport_emission r + Em.electricity_emission r
       + Em.lpg_emission r
  /\ Em.total_emission r
     = d * f + e * ELECTRICITY_FACTOR + l * LPG_FACTOR.
Proof.
  intros Hin r. subst r. unfold compute_emissions.
  rewrite (dict_get_In _ _ f _ EMISSION_FACTORS_keys_NoDup Hin).
  cbn [Em.transport_emission Em.electricity_emission Em.lpg_emission
       Em.total_emission].
  repeat split; reflexivity.
Qed.

Lemma compute_emissions_known_witness :
  In ("Car (Petrol)", 0.192) EMISSION_FACTORS
  /\ Em.total_emission (compute_emissions 10 "Car (Petrol)" 2 1)
     = 10 * 0.192 + 2 * ELECTRICITY_FACTOR + 1 * LPG_FACTOR.
Proof.
  split.
  - simpl. auto.
  - apply (compute_emissions_known 10 2 1 "Car (Petrol)" 0.192).
    simpl. auto.
Defined.

Example compute_emissions_petrol :
  compute_emissions 10 "Car (Petrol)" 0 0
  = Em.mk (10 * 0.192) (0 * 0.18) (0 * 3.0) (10 * 0.192 + 0 * 0.18 + 0 * 3.0).
Proof. reflexivity. Qed.

Example compute_emissions_petrol_value :
  Em.total_emission (compute_emissions 10 "Car (Petrol)" 0 0) == 1.92.
Proof. reflexivity. Qed.

(** C7. For every distance [d] and every transport mode [m] that is not a
    key of the emission-factor table, [compute_emissions] returns a
    [transport_emission] equal to [0.0]; nothing is raised. *)
Theorem compute_emissions_unknown_mode (d e l : Q) (m : string) :
  ~ In m (dict_keys EMISSION_FACTORS) ->
  Em.transport_emission (compute_emissions d m e l) == 0.0.
Proof.
  intros Hm. unfold compute_emissions.
  rewrite (dict_get_missing _ _ _ Hm).
  cbn [Em.transport_emission]. ring.
Qed.

Lemma compute_emissions_unknown_mode_witness :
  Em.transport_emission (compute_emissions 25 "Helicopter" 3 4) == 0.0.
Proof.
  apply (compute_emissions_unknown_mode 25 3 4 "Helicopter").
  unfold dict_keys; simpl.
  intros H; repeat (destruct H as [H|H]; [discriminate|]); exact H.
Defined.

(* ================================================================== *)
(** * Entries created by [page_enter_data] *)

Lemma form_record_sums_up (uid : option string) (f : Form) :
  sums_up (form_record uid f).
Proof. reflexivity. Qed.

Lemma csv_record_sums_up (uid : option string) (al : string) (row : CsvRow)
      (rec : Entry) :
  csv_record uid al row = Some rec -> sums_up rec.
Proof.
  unfold csv_record.
  destruct (csv_date row), (csv_distance row), (csv_electricity row),
    (csv_lpg row); try discriminate.
  intros H; inversion H; subst. reflexivity.
Qed.

Lemma store_record_sums_up (accepted : bool) (s : Stores) (rec : Entry) :
  all_sum_up s -> sums_up rec -> all_sum_up (store_record accepted s rec).
Proof.
  intros [Hr Hl] Hrec. unfold store_record, insert_supabase, insert_local.
  destruct accepted; simpl; split; auto;
    apply Forall_app; split; auto.
Qed.

Lemma import_rows_sums_up (uid : option string) (al : string)
      (rows : list (CsvRow * bool)) (s : Stores) (count : nat) :
  all_sum_up s -> all_sum_up (fst (import_rows uid al rows s count)).
Proof.
  revert s count. induction rows as [|[row accepted] rows IH];
    intros s count Hs; simpl; [exact Hs|].
  destruct (csv_record uid al row) as [rec|] eqn:Hrec.
  - apply IH. apply store_record_sums_up; [exact Hs|].
    eapply csv_record_sums_up; eauto.
  - now apply IH.
Qed.

Lemma step_sums_up (s : Stores) (a : Action) :
  all_sum_up s -> all_sum_up (step s a).
Proof.
  intros Hs. destruct a as [accepted uid f|uid al columns rows]; simpl.
  - apply store_record_sums_up; [exact Hs|apply form_record_sums_up].
  - unfold import_csv. destruct (missing columns); [|exact Hs].
    now apply import_rows_sums_up.
Qed.

Lemma run_sums_up (actions : list Action) (s : Stores) :
  all_sum_up s -> all_sum_up (run actions s).
Proof.
  unfold run. revert s. induction actions as [|a actions IH]; intros s Hs;
    simpl; [exact Hs|].
  apply IH. now apply step_sums_up.
Qed.

(** C2. After every sequence of manual saves and CSV imports, starting
    from empty stores, every stored entry (remote or local) has a
    [total_emission] equal to [transport_emission + electricity_emission +
    lpg_emission]. *)
Theorem created_entries_sum_up (actions : list Action) :
  Forall sums_up (supabase_rows (run actions no_entries))
  /\ Forall sums_up (sqlite_rows (run actions no_entries)).
Proof.
  apply run_sums_up. split; constructor.
Qed.

(** Entries are only ever appended: what is stored stays stored, as it is. *)
Lemma step_appends (s : Stores) (a : Action) :
  exists more_remote more_local,
    supabase_rows (step s a) = (supabase_rows s ++ more_remote)%list
    /\ sqlite_rows (step s a) = (sqlite_rows s ++ more_local)%list.
Proof.
  destruct a as [accepted uid f|uid al columns rows]; simpl.
  - unfold save_entry, store_record, insert_supabase, insert_local.
    destruct accepted; simpl.
    + exists [form_record uid f], []. now rewrite app_nil_r.
    + exists [], [form_record uid f]. now rewrite app_nil_r.
  - unfold import_csv. destruct (missing columns).
    2:{ exists [], []. now rewrite !app_nil_r. }
    generalize 0%nat. revert s.
    induction rows as [|[row accepted] rows IH]; intros s count; simpl.
    + exists [], []. now rewrite !app_nil_r.
    + destruct (csv_record uid al row) as [rec|]; [|apply IH].
      destruct (IH (store_record accepted s rec) (S count))
        as [mr [ml [Hr Hl]]].
      rewrite Hr, Hl.
      unfold store_record, insert_supabase, insert_local.
      destruct accepted; simpl.
      * exists (rec :: mr), ml. now rewrite <- app_assoc.
      * exists mr, (rec :: ml). now rewrite <- app_assoc.
Qed.

Example run_save_then_import :
  let s := run [SaveEntry false None petrol_form;
                UploadCsv None "amina" (required ++ ["alias"])%list
                          [(bad_row, false); (diesel_row, false)]]
               no_entries in
  supabase_rows s = []
  /\ map total_emission (sqlite_rows s)
     = [10 * 0.192 + 0 * 0.18 + 0 * 3.0; 0 * 0.171 + 5 * 0.18 + 0 * 3.0]
  /\ map alias (sqlite_rows s) = [Some "amina"; None].
Proof. repeat split. Qed.

Example import_missing_column :
  import_csv None "" ["date"; "distance"; "lpg"] [(diesel_row, false)] no_entries
  = (no_entries, 0%nat).
Proof. reflexivity. Qed.

(* ================================================================== *)
(** * The weekly check of [page_goals_and_alerts] *)

(** The check the page shows is [goal_status] of the weekly total and the
    target of the widget, and there is one exactly when the frame has rows. *)
Lemma page_check_is_goal_status (goals : list GoalRow) (table : list Entry)
      (uid : option string) (typed : option Q) (save_clicked : bool)
      (today : Date) :
  let v := page_goals_and_alerts goals table uid typed save_clicked today in
  let df := fetch_all_local_for_user table uid in
  view_check v
  = if Pandas.empty df then None
    else Some (weekly_total today df,
               goal_status (weekly_total today df) (view_target v)).
Proof. reflexivity. Qed.

(** C3. For every weekly total [w] and target [t], the evaluation reports
    [EXCEEDED] if and only if [w] is strictly greater than [t]; when [w]
    equals [t] it reports [WITHIN_TARGET]. *)
Theorem goal_status_exceeded_iff (w t : Q) :
  (goal_status w t = EXCEEDED <-> t < w)
  /\ (goal_status w t = WITHIN_TARGET <-> w <= t)
  /\ (w == t -> goal_status w t = WITHIN_TARGET).
Proof.
  unfold goal_status.
  destruct (Qlt_le_dec t w) as [Hlt|Hle].
  - repeat split; intros; try reflexivity; try assumption;
      try discriminate; exfalso; lra.
  - repeat split; intros; try reflexivity; try assumption;
      try discriminate; exfalso; lra.
Qed.

Lemma goal_status_exceeded_iff_witness :
  goal_status 20.0 20 = WITHIN_TARGET /\ goal_status 20.5 20 = EXCEEDED.
Proof.
  split.
  - apply (goal_status_exceeded_iff 20.0 20). reflexivity.
  - apply (goal_status_exceeded_iff 20.5 20). reflexivity.
Defined.

Lemma start_week_is_monday (today : Date) :
  ((start_week today + 6) mod 7 = 0
   /\ toordinal today - 6 <= start_week today <= toordinal today)%Z.
Proof.
  unfold start_week, minus_days, weekday.
  generalize (toordinal today). intros n.
  pose proof (Z.mod_pos_bound (n + 6) 7 ltac:(lia)) as Hb.
  split; [|lia].
  replace (n - (n + 6) mod 7 + 6)%Z with ((n + 6) - (n + 6) mod 7)%Z by lia.
  rewrite (Z.mod_eq (n + 6) 7) by lia.
  replace (n + 6 - (n + 6 - 7 * ((n + 6) / 7)))%Z
    with (((n + 6) / 7) * 7)%Z by lia.
  apply Z.mod_mul. lia.
Qed.

Lemma in_week_iff (today : Date) (r : Entry) :
  in_week today r = true
  <-> (toordinal today - weekday today <= toordinal (date r)
       <= toordinal today)%Z.
Proof.
  unfold in_week, start_week, minus_days.
  rewrite andb_true_iff, !Z.leb_le. tauto.
Qed.

(** C4. The weekly total of a frame is the sum of [total_emission] over
    exactly the entries dated in the closed interval from [today] minus
    [today]'s weekday index, which is the Monday of the current week, to
    [today]: an entry dated outside the interval contributes nothing, an
    entry dated inside contributes its [total_emission]. *)
Theorem weekly_total_window (today : Date) (df : list Entry) :
  let monday := (toordinal today - weekday today)%Z in
  ((monday + 6) mod 7 = 0
   /\ toordinal today - 6 <= monday <= toordinal today)%Z
  /\ weekly_total today df
     = Pandas.sum_col total_emission
         (filter (fun r => (monday <=? toordinal (date r))%Z
                           && (toordinal (date r) <=? toordinal today)%Z) df)
  /\ (forall l1 r l2,
         df = (l1 ++ r :: l2)%list ->
         ~ (monday <= toordinal (date r) <= toordinal today)%Z ->
         weekly_total today df = weekly_total today (l1 ++ l2))
  /\ (forall l1 r l2,
         df = (l1 ++ r :: l2)%list ->
         (monday <= toordinal (date r) <= toordinal today)%Z ->
         weekly_total today df
         == weekly_total today (l1 ++ l2) + total_emission r).
Proof.
  intros monday. split; [|split; [|split]].
  - apply start_week_is_monday.
  - reflexivity.
  - intros l1 r l2 -> Hout. unfold weekly_total, week_df.
    f_equal. apply filter_remove_false.
    destruct (in_week today r) eqn:Hr; [|reflexivity].
    exfalso. apply Hout. now apply in_week_iff.
  - intros l1 r l2 -> Hin. unfold weekly_total, week_df.
    apply sum_col_filter_remove_true. now apply in_week_iff.
Qed.

Lemma weekly_total_window_witness :
  weekly_total wednesday
    [entry_on (mkDate 2026 11 2) 1; entry_on (mkDate 2026 11 1) 7;
     entry_on (mkDate 2026 11 4) 2]
  = weekly_total wednesday
      [entry_on (mkDate 2026 11 2) 1; entry_on (mkDate 2026 11 4) 2].
Proof.
  apply (proj1 (proj2 (proj2
           (weekly_total_window wednesday
              [entry_on (mkDate 2026 11 2) 1; entry_on (mkDate 2026 11 1) 7;
               entry_on (mkDate 2026 11 4) 2])))
           [entry_on (mkDate 2026 11 2) 1] (entry_on (mkDate 2026 11 1) 7)
           [entry_on (mkDate 2026 11 4) 2]).
  - reflexivity.
  - vm_compute. intros [H _]. apply H. reflexivity.
Defined.

Example weekday_of_wednesday :
  weekday wednesday = 2%Z /\ start_week wednesday = toordinal (mkDate 2026 11 2).
Proof. split; reflexivity. Qed.

(** The worked example: Monday 10 km by petrol car, Tuesday 5 km by
    bicycle, Wednesday 5 kWh, checked on that Wednesday. *)
Example weekly_total_worked :
  let form d m km kwh := mkForm "" d km m kwh 0 "" in
  let s := run [SaveEntry false None
                  (form (mkDate 2026 11 2) "Car (Petrol)" 10 0);
                SaveEntry false None
                  (form (mkDate 2026 11 3) "Bicycle/Walking" 5 0);
                SaveEntry false None
                  (form (mkDate 2026 11 4) "Car (Diesel)" 0 5)]
               no_entries in
  weekly_total wednesday (fetch_all_local_for_user (sqlite_rows s) None)
  == 2.82.
Proof. vm_compute. reflexivity. Qed.

Example weekly_total_sunday_excluded :
  weekly_total wednesday
    [entry_on (mkDate 2026 11 1) 7; entry_on (mkDate 2026 11 2) 1;
     entry_on (mkDate 2026 11 5) 9]
  == 1.
Proof. vm_compute. reflexivity. Qed.

(* ================================================================== *)
(** * The goal of a user: [user_goals] *)

(** C10. When the stored weekly target of the session's user is zero, the
    page, with its widget left untouched, presents [20.0] and evaluates the
    week against [20.0]: target and check are those of a user with no
    stored goal. *)
Theorem zero_target_is_default (goals : list GoalRow) (table : list Entry)
        (uid : option string) (save_clicked : bool) (today : Date) (z : Q) :
  current_target goals uid = Some z ->
  z == 0 ->
  let v := page_goals_and_alerts goals table uid None save_clicked today in
  let unset := page_goals_and_alerts [] table uid None save_clicked today in
  let df := fetch_all_local_for_user table uid in
  view_target v = 20.0
  /\ view_target v = view_target unset
  /\ view_check v = view_check unset
  /\ view_check v
     = if Pandas.empty df then None
       else Some (weekly_total today df,
                  goal_status (weekly_total today df) 20.0).
Proof.
  intros Hcur Hz. cbv zeta.
  assert (Hv : view_target (page_goals_and_alerts goals table uid None
                                                  save_clicked today)
               = 20.0).
  { unfold page_goals_and_alerts. cbn [view_target].
    rewrite Hcur. unfold number_input, or_default.
    apply Qeq_bool_iff in Hz. now rewrite Hz. }
  assert (Hu : view_target (page_goals_and_alerts [] table uid None
                                                  save_clicked today)
               = 20.0).
  { unfold page_goals_and_alerts. cbn [view_target].
    unfold current_target, select_weekly_target. simpl.
    now destruct (truthy uid). }
  rewrite !page_check_is_goal_status, Hv, Hu.
  repeat split; reflexivity.
Qed.

Lemma zero_target_is_default_witness :
  view_target (page_goals_and_alerts [mkGoal guest 0.0]
                 [entry_on wednesday 5] guest None false wednesday)
  = 20.0.
Proof.
  apply (zero_target_is_default [mkGoal guest 0.0] [entry_on wednesday 5]
                                guest false wednesday 0.0).
  - reflexivity.
  - reflexivity.
Defined.

(** With a stored target of zero and 5 kg this week the page reports
    [WITHIN_TARGET]; against the stored zero it would be [EXCEEDED]. *)
Example zero_target_check :
  view_check (page_goals_and_alerts [mkGoal guest 0.0]
                [mkEntry guest None wednesday "Motorbike" 0 0 0 0 0 0 5 ""]
                guest None false wednesday)
  = Some (0 + 5, WITHIN_TARGET)
  /\ goal_status (0 + 5) 0.0 = EXCEEDED.
Proof. split; reflexivity. Qed.

(** ** Upsert *)

Lemma goal_rows_sql_eq (u : string) (goals : list GoalRow) :
  goal_rows (Some u) goals
  = List.length (filter (fun r => sql_eq (goal_user_id r) (Some u)) goals).
Proof.
  reflexivity.
Qed.

Lemma goal_rows_app (uid : option string) (g1 g2 : list GoalRow) :
  goal_rows uid (g1 ++ g2) = (goal_rows uid g1 + goal_rows uid g2)%nat.
Proof. unfold goal_rows. now rewrite filter_app, length_app. Qed.

Lemma select_none_iff (goals : list GoalRow) (u : string) :
  select_weekly_target goals (Some u) = None
  <-> goal_rows (Some u) goals = 0%nat.
Proof.
  rewrite goal_rows_sql_eq. unfold select_weekly_target.
  destruct (filter _ goals); simpl; split; congruence.
Qed.

(** The [UPDATE] keeps every row's [user_id]. *)
Lemma goal_rows_update (uid v : option string) (t : Q)
      (goals : list GoalRow) :
  goal_rows uid
    (map (fun r => if sql_eq (goal_user_id r) v
                   then {| goal_user_id := goal_user_id r;
                           weekly_target := t |}
                   else r) goals)
  = goal_rows uid goals.
Proof.
  unfold goal_rows. induction goals as [|r goals IH]; simpl; [reflexivity|].
  destruct (sql_eq (goal_user_id r) v); simpl;
    destruct (goal_user_id r), uid; simpl;
    try (destruct (String.eqb _ _)); simpl; now rewrite ?IH.
Qed.

Lemma truthy_Some (u : string) : u <> "" -> truthy (Some u) = true.
Proof.
  intros Hu. simpl. now destruct (String.eqb_spec u "").
Qed.

Lemma save_click_eq (table : list Entry) (today : Date)
      (goals : list GoalRow) (c : option string * option Q) :
  save_click table today goals c
  = save_target goals (fst c) (current_target goals (fst c))
      (number_input (snd c) (or_default (current_target goals (fst c)) 20.0)).
Proof. reflexivity. Qed.

(** One click keeps "at most one row" for every user id that is set. *)
Lemma save_click_at_most_one (table : list Entry) (today : Date)
      (goals : list GoalRow) (c : option string * option Q) (u : string) :
  u <> "" ->
  (goal_rows (Some u) goals <= 1)%nat ->
  (goal_rows (Some u) (save_click table today goals c) <= 1)%nat.
Proof.
  intros Hu Hle. rewrite save_click_eq.
  destruct c as [uid typed]; cbn [fst snd].
  unfold save_target.
  destruct (current_target goals uid) as [cur|] eqn:Hcur.
  - now rewrite goal_rows_update.
  - rewrite goal_rows_app. unfold current_target in Hcur.
    destruct uid as [v|]; simpl in Hcur.
    + destruct (String.eqb_spec v "") as [->|Hv]; simpl in Hcur.
      * unfold goal_rows at 2; simpl.
        destruct u as [|a u']; [congruence|simpl; lia].
      * apply select_none_iff in Hcur.
        unfold goal_rows at 2; simpl.
        destruct (String.eqb_spec v u) as [->|_]; simpl; lia.
    + unfold goal_rows at 2; simpl. lia.
Qed.

Lemma save_clicks_at_most_one (table : list Entry) (today : Date)
      (cs : list (option string * option Q)) (goals : list GoalRow)
      (u : string) :
  u <> "" ->
  (goal_rows (Some u) goals <= 1)%nat ->
  (goal_rows (Some u) (save_clicks table today cs goals) <= 1)%nat.
Proof.
  intros Hu. unfold save_clicks. revert goals.
  induction cs as [|c cs IH]; intros goals Hle; simpl; [exact Hle|].
  apply IH. now apply save_click_at_most_one.
Qed.

(** A list with exactly one row passing a test splits around that row. *)
Lemma filter_one_split {A : Type} (p : A -> bool) (l : list A) :
  List.length (filter p l) = 1%nat ->
  exists l1 r l2,
    l = (l1 ++ r :: l2)%list /\ p r = true
    /\ filter p l1 = [] /\ filter p l2 = [].
Proof.
  induction l as [|x l IH]; simpl; [discriminate|].
  destruct (p x) eqn:Hx; simpl; intros Hlen.
  - exists [], x, l. repeat split; auto.
    destruct (filter p l); [reflexivity|discriminate].
  - destruct (IH Hlen) as [l1 [r [l2 [-> [Hr [H1 H2]]]]]].
    exists (x :: l1), r, l2. simpl. rewrite Hx. auto.
Qed.

Lemma map_update_untouched {A : Type} (p : A -> bool) (f : A -> A)
      (l : list A) :
  filter p l = [] -> map (fun r => if p r then f r else r) l = l.
Proof.
  induction l as [|x l IH]; simpl; [reflexivity|].
  destruct (p x) eqn:Hx; [discriminate|].
  intros H. now rewrite IH.
Qed.

(** C9, as the code has it. For every user id that is set (not empty) and
    every sequence of "Save target" clicks by any sessions, starting from an
    empty table, the table holds at most one goal row of that user; a
    further save by that user appends a row with the target when the user
    has none, and otherwise replaces the target of the user's row in place;
    either way the user then has exactly one row. *)
Theorem goal_upsert (table : list Entry) (today : Date)
        (cs : list (option string * option Q)) (u : string)
        (typed : option Q) :
  u <> "" ->
  let goals := save_clicks table today cs [] in
  let goals' := save_click table today goals (Some u, typed) in
  let target :=
    number_input typed
      (or_default (select_weekly_target goals (Some u)) 20.0) in
  (goal_rows (Some u) goals <= 1)%nat
  /\ (goal_rows (Some u) goals = 0%nat ->
      goals' = (goals ++ [mkGoal (Some u) target])%list)
  /\ (goal_rows (Some u) goals = 1%nat ->
      exists l1 r l2,
        goals = (l1 ++ r :: l2)%list
        /\ goal_user_id r = Some u
        /\ goals' = (l1 ++ mkGoal (Some u) target :: l2)%list)
  /\ goal_rows (Some u) goals' = 1%nat.
Proof.
  intros Hu goals goals' target.
  assert (Hle : (goal_rows (Some u) goals <= 1)%nat).
  { apply save_clicks_at_most_one; [exact Hu|]. unfold goal_rows. simpl. lia. }
  assert (Heq : goals'
                = save_target goals (Some u)
                    (select_weekly_target goals (Some u)) target).
  { subst goals' target. rewrite save_click_eq. cbn [fst snd].
    unfold current_target. now rewrite (truthy_Some u Hu). }
  assert (H0 : goal_rows (Some u) goals = 0%nat ->
               goals' = (goals ++ [mkGoal (Some u) target])%list).
  { intros Hz. rewrite Heq. apply select_none_iff in Hz.
    unfold save_target. now rewrite Hz. }
  split; [exact Hle|]. split; [exact H0|]. split.
  - intros H1. rewrite Heq. unfold save_target.
    destruct (select_weekly_target goals (Some u)) as [cur|] eqn:Hsel.
    2:{ apply select_none_iff in Hsel. lia. }
    rewrite goal_rows_sql_eq in H1.
    destruct (filter_one_split _ _ H1) as [l1 [r [l2 [Hg [Hr [Hl1 Hl2]]]]]].
    exists l1, r, l2. split; [exact Hg|].
    assert (Hru : goal_user_id r = Some u).
    { unfold sql_eq in Hr. destruct (goal_user_id r) as [a|];
        [|discriminate].
      apply String.eqb_eq in Hr. now subst. }
    split; [exact Hru|].
    rewrite Hg, map_app. simpl. rewrite Hr, Hru.
    now rewrite (map_update_untouched _ _ l1 Hl1),
      (map_update_untouched _ _ l2 Hl2).
  - destruct (goal_rows (Some u) goals) as [|[|n]] eqn:Hn; [| |lia].
    + rewrite (H0 eq_refl), goal_rows_app, Hn.
      unfold goal_rows; simpl. now rewrite String.eqb_refl.
    + rewrite Heq. unfold save_target.
      destruct (select_weekly_target goals (Some u)) as [cur|] eqn:Hsel.
      * now rewrite goal_rows_update.
      * apply select_none_iff in Hsel. lia.
Qed.

Lemma goal_upsert_witness :
  "guest-4242" <> ""
  /\ goal_rows guest
       (save_click [] wednesday
          (save_clicks [] wednesday [(None, Some 10); (guest, Some 12)] [])
          (guest, Some 15))
     = 1%nat.
Proof.
  assert (Hu : "guest-4242" <> "") by discriminate.
  split; [exact Hu|].
  exact (proj2 (proj2 (proj2
           (goal_upsert [] wednesday [(None, Some 10); (guest, Some 12)]
                        "guest-4242" (Some 15) Hu)))).
Defined.

(** Without a user id the lookup is skipped and every save appends. *)
Lemma anonymous_save_appends (table : list Entry) (today : Date)
      (goals : list GoalRow) (typed : option Q) :
  save_click table today goals (None, typed)
  = (goals ++ [mkGoal None (number_input typed 20.0)])%list.
Proof. reflexivity. Qed.

(** C9, as it is stated: a session without user id is a counterexample.
    Its lookup is skipped, so every save inserts a row, and two saves leave
    two goal rows under the same (null) user id. *)
Lemma anonymous_saves_insert_twice :
  save_clicks [] wednesday two_anonymous_saves []
  = [mkGoal None 10; mkGoal None 15]
  /\ ~ (goal_rows None (save_clicks [] wednesday two_anonymous_saves [])
        <= 1)%nat.
Proof.
  split; [reflexivity|]. vm_compute. lia.
Qed.

Example guest_saves_update :
  save_clicks [] wednesday
    [(guest, Some 10); (Some "guest-7", None); (guest, Some 15)] []
  = [mkGoal guest 15; mkGoal (Some "guest-7") 20.0].
Proof. reflexivity. Qed.

(* ================================================================== *)
(** * The ranking of [page_leaderboard] *)

Lemma in_last_7_days_iff (today : Date) (r : Entry) :
  in_last_7_days today r = true
  <-> (toordinal today - 7 <= toordinal (date r))%Z.
Proof. unfold in_last_7_days, minus_days. apply Z.leb_le. Qed.

(** The alias column of the aggregate holds group keys, none of them
    null: [fillna] changes nothing. *)
Lemma leaderboard_eq (today : Date) (df_all : list Entry) :
  leaderboard today df_all
  = Pandas.head 10
      (Pandas.sort_values snd
         (Pandas.groupby_agg string_dec String.leb alias
            (Pandas.sum_col total_emission)
            (filter (in_last_7_days today) df_all))).
Proof.
  unfold leaderboard. do 2 f_equal.
  rewrite <- (map_id (Pandas.groupby_agg _ _ _ _ _)) at 2.
  apply map_ext. now intros [a t].
Qed.




Example leaderboard_sample :
  page_leaderboard
    [sample_bob 3; sample_old; sample_bob 1;
     mkEntry None (Some "al") (mkDate 2026 10 28) "Motorbike" 0 0 0 0 0 0 2 ""]
    wednesday
  = Some [("al", 0 + 2); ("bob", 0 + 3 + 1)].
Proof. reflexivity. Qed.

(** A row whose alias is null never reaches the ranking. *)
Lemma leaderboard_ignores_null_alias (today : Date) (l1 l2 : list Entry)
      (r : Entry) :
  alias r = None ->
  leaderboard today (l1 ++ r :: l2) = leaderboard today (l1 ++ l2).
Proof.
  intros Hr. rewrite !leaderboard_eq. do 2 f_equal.
  rewrite !filter_app. simpl.
  destruct (in_last_7_days today r); [|reflexivity].
  now apply groupby_agg_null.
Qed.

(** C6. The code against the property: a CSV row with an empty alias cell
    is stored with a null alias; dated today it is inside the window, yet
    the leaderboard has no "Anonymous" row and its emissions appear
    nowhere, whereas coercing before grouping ranks it under "Anonymous". *)
Theorem null_alias_not_ranked :
  let table := sqlite_rows
                 (run [UploadCsv None "" (required ++ ["alias"])%list
                                 [(diesel_row, false)];
                       SaveEntry false None petrol_form] no_entries) in
  map alias table = [None; Some "amina"]
  /\ map (in_last_7_days wednesday) table = [true; true]
  /\ page_leaderboard table wednesday
     = Some [("amina", 0 + (10 * 0.192 + 0 * 0.18 + 0 * 3.0))]
  /\ spec_leaderboard wednesday (fetch_all_local_for_user table None)
     = [("Anonymous", 0 + (0 * 0.171 + 5 * 0.18 + 0 * 3.0));
        ("amina", 0 + (10 * 0.192 + 0 * 0.18 + 0 * 3.0))].
Proof. repeat split. Qed.

(* ================================================================== *)
(** * The monthly rollup of [page_history] *)

(** Two dates with valid months are in the same period exactly when they
    share year and month. *)
Lemma to_period_M_inj (d1 d2 : Date) :
  valid_month d1 -> valid_month d2 ->
  to_period_M d1 = to_period_M d2 ->
  year d1 = year d2 /\ month d1 = month d2.
Proof. unfold valid_month, to_period_M. lia. Qed.

Lemma to_timestamp_period (d : Date) :
  valid_month d ->
  to_timestamp (to_period_M d) = mkDate (year d) (month d) 1.
Proof.
  unfold valid_month, to_period_M, to_timestamp. intros Hm.
  f_equal.
  - symmetry. apply (Z.div_unique _ 12 _ (month d - 1)); lia.
  - assert (E : ((year d * 12 + (month d - 1)) mod 12 = month d - 1)%Z).
    { symmetry. apply (Z.mod_unique _ 12 (year d)); lia. }
    lia.
Qed.

Lemma in_group_period_eqb (p : Z) (r : Entry) :
  Pandas.in_group Z.eq_dec period_of p r = (to_period_M (date r) =? p)%Z.
Proof.
  unfold Pandas.in_group, period_of.
  destruct (Z.eq_dec (to_period_M (date r)) p) as [->|Hne].
  - now rewrite Z.eqb_refl.
  - symmetry. now apply Z.eqb_neq.
Qed.

(** A duplicate-free ascending list whose members are exactly two values
    is those two values in order. *)
Lemma sorted_pair (l : list Z) (p1 p2 : Z) :
  (p1 < p2)%Z ->
  Sorted (le_of Z.leb) l -> NoDup l ->
  (forall x, In x l <-> x = p1 \/ x = p2) ->
  l = [p1; p2].
Proof.
  intros Hlt Hs Hnd Hin.
  destruct l as [|a [|b [|c l]]].
  - exfalso. apply (Hin p1). now left.
  - exfalso.
    assert (H1 : In p1 [a]) by (apply Hin; now left).
    assert (H2 : In p2 [a]) by (apply Hin; now right).
    simpl in H1, H2. lia.
  - assert (Ha : a = p1 \/ a = p2) by (apply Hin; simpl; auto).
    assert (Hb : b = p1 \/ b = p2) by (apply Hin; simpl; auto).
    inversion Hnd as [|? ? Hab _]; subst.
    assert (Hne : a <> b) by (intros ->; apply Hab; simpl; auto).
    inversion Hs as [|? ? _ Hhd]; subst.
    inversion Hhd as [|? ? Hle]; subst.
    unfold le_of in Hle. apply Z.leb_le in Hle.
    assert (a = p1 /\ b = p2) as [-> ->] by lia.
    reflexivity.
  - exfalso.
    assert (Ha : a = p1 \/ a = p2) by (apply Hin; simpl; auto).
    assert (Hb : b = p1 \/ b = p2) by (apply Hin; simpl; auto).
    assert (Hc : c = p1 \/ c = p2) by (apply Hin; simpl; auto).
    inversion Hnd as [|? ? Ha' Hnd']; subst.
    inversion Hnd' as [|? ? Hb' _]; subst.
    assert (a <> b) by (intros ->; apply Ha'; simpl; auto).
    assert (a <> c) by (intros ->; apply Ha'; simpl; auto).
    assert (b <> c) by (intros ->; apply Hb'; simpl; auto).
    lia.
Qed.

Lemma monthly_rollup_chronological (df : list Entry) :
  StronglySorted Z.lt (map fst (monthly_rollup df)).
Proof.
  unfold monthly_rollup. rewrite groupby_agg_keys.
  pose proof (group_keys_NoDup Z.eq_dec Z.leb period_of df) as Hnd.
  assert (Hs : Sorted (le_of Z.leb)
                 (Pandas.group_keys Z.eq_dec Z.leb period_of df)).
  { apply sort_Sorted. intros x y. rewrite !Z.leb_le. lia. }
  apply Sorted_StronglySorted in Hs.
  2:{ intros x y z. unfold le_of. rewrite !Z.leb_le. lia. }
  induction Hs as [|a l Hs IH Hall]; constructor.
  - apply IH. now inversion Hnd.
  - inversion Hnd as [|? ? Ha _]; subst.
    rewrite Forall_forall in *. intros x Hx.
    specialize (Hall x Hx). unfold le_of in Hall. apply Z.leb_le in Hall.
    assert (a <> x) by (intros ->; contradiction). lia.
Qed.

(** Where the sum leaves the non-numeric columns out (pandas before 2.0):
    for a frame whose entries span exactly two distinct months [p1 < p2],
    the monthly rollup has exactly two rows: first the row of [p1], then
    the row of [p2], each holding the sums of the numeric columns over the
    entries of its own month only. *)
Theorem monthly_rollup_two_months (df : list Entry) (p1 p2 : Z) :
  (p1 < p2)%Z ->
  (forall r, In r df ->
             to_period_M (date r) = p1 \/ to_period_M (date r) = p2) ->
  (exists r, In r df /\ to_period_M (date r) = p1) ->
  (exists r, In r df /\ to_period_M (date r) = p2) ->
  monthly_rollup df
  = [(p1, sums (filter (fun r => (to_period_M (date r) =? p1)%Z) df));
     (p2, sums (filter (fun r => (to_period_M (date r) =? p2)%Z) df))]
  /\ df_monthly df
     = [(to_timestamp p1,
         sums (filter (fun r => (to_period_M (date r) =? p1)%Z) df));
        (to_timestamp p2,
         sums (filter (fun r => (to_period_M (date r) =? p2)%Z) df))].
Proof.
  intros Hlt Hall [r1 [Hr1 Hp1]] [r2 [Hr2 Hp2]].
  assert (Hkeys : Pandas.group_keys Z.eq_dec Z.leb period_of df = [p1; p2]).
  { apply sorted_pair; [exact Hlt| | |].
    - apply sort_Sorted. intros x y. rewrite !Z.leb_le. lia.
    - apply group_keys_NoDup.
    - intros x. rewrite group_keys_In. unfold period_of. split.
      + intros [r [Hr Hk]]. inversion Hk; subst. now apply Hall.
      + intros [->| ->]; [exists r1|exists r2]; split; auto; congruence. }
  assert (Hroll : monthly_rollup df
                  = [(p1, sums (filter (fun r => (to_period_M (date r)
                                                  =? p1)%Z) df));
                     (p2, sums (filter (fun r => (to_period_M (date r)
                                                  =? p2)%Z) df))]).
  { unfold monthly_rollup, Pandas.groupby_agg, Pandas.get_group.
    rewrite Hkeys. simpl.
    now rewrite !(filter_ext _ _ (in_group_period_eqb _)). }
  split; [exact Hroll|].
  unfold df_monthly. now rewrite Hroll.
Qed.

Lemma monthly_rollup_two_months_witness :
  map fst (df_monthly [entry_on (mkDate 2026 11 2) 1;
                       entry_on (mkDate 2026 10 30) 7;
                       entry_on (mkDate 2026 11 4) 2])
  = [mkDate 2026 10 1; mkDate 2026 11 1].
Proof.
  destruct (monthly_rollup_two_months
              [entry_on (mkDate 2026 11 2) 1; entry_on (mkDate 2026 10 30) 7;
               entry_on (mkDate 2026 11 4) 2]
              (2026 * 12 + 9) (2026 * 12 + 10)) as [_ H].
  - reflexivity.
  - simpl. intros r [<-|[<-|[<-|[]]]]; vm_compute; auto.
  - exists (entry_on (mkDate 2026 10 30) 7). split; [simpl; auto|reflexivity].
  - exists (entry_on (mkDate 2026 11 2) 1). split; [simpl; auto|reflexivity].
  - rewrite H. reflexivity.
Defined.

Example monthly_rollup_sample :
  map (fun row => (fst row, sum_total_emission (snd row)))
      (df_monthly [entry_on (mkDate 2026 11 2) 1;
                   entry_on (mkDate 2026 10 30) 7;
                   entry_on (mkDate 2026 11 4) 2])
  = [(mkDate 2026 10 1, 0 + 7); (mkDate 2026 11 1, 0 + 1 + 2)].
Proof. reflexivity. Qed.

(** From pandas 2.0 on the page raises on every frame that has rows. *)
Lemma page_history_raises (table : list Entry) (uid : option string) :
  fetch_all_local_for_user table uid <> [] ->
  page_history pandas_from_2 table uid = Some Raises_TypeError.
Proof.
  unfold page_history. intros Hne.
  destruct (fetch_all_local_for_user table uid); [congruence|reflexivity].
Qed.

(** C8. The code against the property: on a table whose entries span
    October and November 2026, line 258 sums the whole frame, datetime64
    [date] column included.  With pandas from 2.0 on that raises
    [TypeError] and the page shows no rollup at all, where the property
    has two rows; only where the sum leaves the non-numeric columns out
    (pandas before 2.0) does the page give the two rows, October first. *)
Theorem monthly_rollup_raises :
  let table := [entry_on (mkDate 2026 11 2) 1;
                entry_on (mkDate 2026 10 30) 7;
                entry_on (mkDate 2026 11 4) 2] in
  page_history pandas_from_2 table None = Some Raises_TypeError
  /\ option_map
       (fun out => match out with
                   | Returns rows =>
                       Returns (map (fun row =>
                                       (fst row,
                                        sum_total_emission (snd row))) rows)
                   | Raises_TypeError => Raises_TypeError
                   end)
       (page_history pandas_before_2 table None)
     = Some (Returns [(mkDate 2026 10 1, 0 + 7);
                      (mkDate 2026 11 1, 0 + 1 + 2)]).
Proof. split; reflexivity. Qed.

(* ================================================================== *)
(** * Further properties of [compute_emissions] *)

Lemma factor_nonneg (m : string) : 0 <= dict_get EMISSION_FACTORS m 0.0.
Proof.
  unfold EMISSION_FACTORS, dict_get.
  repeat match goal with
         | |- context [String.eqb ?k m] => destruct (String.eqb k m)
         end; unfold Qle; simpl; lia.
Qed.

(** X1. Non-negative quantities give non-negative emissions, whatever the
    transport mode, and the total is at least each of its parts. *)
Theorem compute_emissions_nonneg (d e l : Q) (m : string) :
  0 <= d -> 0 <= e -> 0 <= l ->
  let r := compute_emissions d m e l in
  0 <= Em.transport_emission r
  /\ 0 <= Em.electricity_emission r
  /\ 0 <= Em.lpg_emission r
  /\ Em.transport_emission r <= Em.total_emission r
  /\ Em.electricity_emission r <= Em.total_emission r
  /\ Em.lpg_emission r <= Em.total_emission r.
Proof.
  intros Hd He Hl. unfold compute_emissions.
  cbn [Em.transport_emission Em.electricity_emission Em.lpg_emission
       Em.total_emission].
  pose proof (Qmult_le_0_compat _ _ Hd (factor_nonneg m)) as Ht.
  assert (Hf : 0 <= ELECTRICITY_FACTOR) by (unfold Qle; simpl; lia).
  assert (Hg : 0 <= LPG_FACTOR) by (unfold Qle; simpl; lia).
  pose proof (Qmult_le_0_compat _ _ He Hf) as Hel.
  pose proof (Qmult_le_0_compat _ _ Hl Hg) as Hlp.
  repeat split; lra.
Qed.

Lemma compute_emissions_nonneg_witness :
  0 <= Em.transport_emission (compute_emissions 12 "Tuk-tuk" 3 0.5).
Proof.
  apply (compute_emissions_nonneg 12 3 0.5 "Tuk-tuk");
    unfold Qle; simpl; lia.
Defined.

(** X3. For a positive distance the transport emission is zero exactly
    when the mode is not one of the four motorised modes of the table:
    "Bicycle/Walking" and every unlisted mode travel for free. *)
Theorem transport_emission_zero_iff (d e l : Q) (m : string) :
  0 < d ->
  (Em.transport_emission (compute_emissions d m e l) == 0
   <-> ~ In m ["Car (Petrol)"; "Car (Diesel)"; "Motorbike"; "Matatu/Bus"]).
Proof.
  intros Hd. unfold compute_emissions. cbn [Em.transport_emission].
  unfold EMISSION_FACTORS, dict_get.
  destruct (String.eqb_spec "Car (Petrol)" m) as [<-|H1].
  { split; [intros H; lra|intros H; exfalso; apply H; simpl; auto]. }
  destruct (String.eqb_spec "Car (Diesel)" m) as [<-|H2].
  { split; [intros H; lra|intros H; exfalso; apply H; simpl; auto]. }
  destruct (String.eqb_spec "Motorbike" m) as [<-|H3].
  { split; [intros H; lra|intros H; exfalso; apply H; simpl; auto]. }
  destruct (String.eqb_spec "Matatu/Bus" m) as [<-|H4].
  { split; [intros H; lra|intros H; exfalso; apply H; simpl; auto]. }
  assert (Hnot : ~ In m ["Car (Petrol)"; "Car (Diesel)"; "Motorbike";
                         "Matatu/Bus"]).
  { simpl. intros [H|[H|[H|[H|[]]]]]; congruence. }
  destruct (String.eqb "Bicycle/Walking" m);
    (split; [intros _; exact Hnot|intros _; ring]).
Qed.

Lemma transport_emission_zero_iff_witness :
  Em.transport_emission (compute_emissions 5 "Bicycle/Walking" 0 0) == 0.
Proof.
  apply (transport_emission_zero_iff 5 0 0 "Bicycle/Walking").
  - reflexivity.
  - simpl. intros [H|[H|[H|[H|[]]]]]; discriminate.
Defined.

(* ================================================================== *)
(** * The local table: [fetch_all_local_for_user] and the inserts *)

Lemma order_by_date_sorted (rows : list Entry) :
  StronglySorted
    (fun r1 r2 => (toordinal (date r1) <= toordinal (date r2))%Z)
    (order_by_date rows).
Proof.
  unfold order_by_date.
  apply Sorted_StronglySorted.
  - intros x y z Hxy Hyz. lia.
  - eapply Sorted_weaken; [|apply sort_Sorted].
    + unfold le_of, date_leb. intros x y Hxy. now apply Z.leb_le.
    + intros x y. unfold date_leb. rewrite !Z.leb_le. lia.
Qed.

Lemma sql_eq_true_iff (column param : option string) :
  sql_eq column param = true <-> exists u, column = Some u /\ param = Some u.
Proof.
  unfold sql_eq. destruct column as [a|], param as [b|]; split;
    try discriminate; try (intros [u [H1 H2]]; discriminate).
  - intros H. apply String.eqb_eq in H. subst. now exists b.
  - intros [u [H1 H2]]. inversion H1; inversion H2; subst.
    apply String.eqb_refl.
Qed.



Lemma fetch_own_record (table : list Entry) (rec : Entry) :
  In rec (fetch_all_local_for_user (insert_local table rec) (user_id rec)).
Proof.
  unfold fetch_all_local_for_user, insert_local, order_by_date.
  destruct (truthy (user_id rec)) eqn:Hu; apply sort_In.
  - apply filter_In. split; [apply in_or_app; right; simpl; auto|].
    destruct (user_id rec) as [u|]; [|discriminate].
    simpl. apply String.eqb_refl.
  - apply in_or_app; right; simpl; auto.
Qed.

(** X5. An entry saved while the remote insert fails is appended to the
    local table and is returned by [fetch_all_local_for_user] for the
    session that saved it.  An entry the remote store accepts is not written
    locally: the local table, and with it what the history page shows, stays
    as it was. *)
Theorem save_entry_local_or_remote (s : Stores) (uid : option string)
        (f : Form) :
  In (form_record uid f)
     (fetch_all_local_for_user (sqlite_rows (save_entry false s uid f)) uid)
  /\ supabase_rows (save_entry false s uid f) = supabase_rows s
  /\ supabase_rows (save_entry true s uid f)
     = (supabase_rows s ++ [form_record uid f])%list
  /\ sqlite_rows (save_entry true s uid f) = sqlite_rows s
  /\ (forall v,
         page_history v (sqlite_rows (save_entry true s uid f)) uid
         = page_history v (sqlite_rows s) uid).
Proof.
  split; [|repeat split].
  exact (fetch_own_record (sqlite_rows s) (form_record uid f)).
Qed.

(* ================================================================== *)
(** * The CSV import *)

Lemma csv_record_converts (uid : option string) (al : string)
      (row : CsvRow) :
  row_converts row = false <-> csv_record uid al row = None.
Proof.
  unfold row_converts, csv_record.
  destruct (csv_date row), (csv_distance row), (csv_electricity row),
    (csv_lpg row); split; intros H; try reflexivity; discriminate.
Qed.

Lemma store_record_length (accepted : bool) (s : Stores) (rec : Entry) :
  (List.length (supabase_rows (store_record accepted s rec))
   + List.length (sqlite_rows (store_record accepted s rec))
   = S (List.length (supabase_rows s) + List.length (sqlite_rows s)))%nat.
Proof.
  unfold store_record, insert_supabase, insert_local.
  destruct accepted; simpl; rewrite length_app; simpl; lia.
Qed.

Lemma import_rows_count (uid : option string) (al : string)
      (rows : list (CsvRow * bool)) (s : Stores) (count : nat) :
  let res := import_rows uid al rows s count in
  (snd res
   = count + List.length (filter (fun rw => row_converts (fst rw)) rows))%nat
  /\ (List.length (supabase_rows (fst res))
      + List.length (sqlite_rows (fst res)) + count
      = List.length (supabase_rows s) + List.length (sqlite_rows s)
        + snd res)%nat.
Proof.
  revert s count. induction rows as [|[row accepted] rows IH];
    intros s count; simpl.
  - split; lia.
  - destruct (csv_record uid al row) as [rec|] eqn:Hrec.
    + assert (Hc : row_converts row = true).
      { destruct (row_converts row) eqn:E; [reflexivity|].
        apply (csv_record_converts uid al) in E. congruence. }
      rewrite Hc. simpl.
      destruct (IH (store_record accepted s rec) (S count)) as [H1 H2].
      pose proof (store_record_length accepted s rec) as Hl.
      split; lia.
    + apply (csv_record_converts uid al) in Hrec. rewrite Hrec.
      apply IH.
Qed.

Lemma missing_nil_iff (columns : list string) :
  missing columns = [] <-> incl required columns.
Proof.
  unfold missing. split.
  - intros Hm c Hc.
    destruct (existsb (String.eqb c) columns) eqn:E.
    + apply existsb_exists in E. destruct E as [x [Hx Heq]].
      apply String.eqb_eq in Heq. now subst.
    + exfalso.
      assert (Hin : In c (filter (fun c => negb (existsb (String.eqb c)
                                                         columns))
                                 required)).
      { apply filter_In. split; [exact Hc|]. now rewrite E. }
      rewrite Hm in Hin. exact Hin.
  - intros Hincl.
    destruct (filter _ required) as [|c l] eqn:E; [reflexivity|].
    exfalso.
    assert (Hin : In c (filter (fun c => negb (existsb (String.eqb c)
                                                       columns))
                               required))
      by (rewrite E; simpl; auto).
    apply filter_In in Hin. destruct Hin as [Hc Hn].
    apply negb_true_iff in Hn.
    assert (Hex : existsb (String.eqb c) columns = true).
    { apply existsb_exists. exists c. split; [now apply Hincl|].
      apply String.eqb_refl. }
    congruence.
Qed.

(** X6. An upload that lacks one of the five required columns imports
    nothing.  Otherwise [count] is the number of rows whose date and three
    quantities convert, and the two stores together gain exactly [count]
    entries: every imported row is stored once, remotely or locally. *)
Theorem import_csv_count (uid : option string) (al : string)
        (columns : list string) (rows : list (CsvRow * bool)) (s : Stores) :
  let res := import_csv uid al columns rows s in
  (~ incl required columns -> res = (s, 0%nat))
  /\ (incl required columns ->
      snd res
      = List.length (filter (fun rw => row_converts (fst rw)) rows))
  /\ (List.length (supabase_rows (fst res))
      + List.length (sqlite_rows (fst res))
      = List.length (supabase_rows s) + List.length (sqlite_rows s)
        + snd res)%nat.
Proof.
  unfold import_csv.
  destruct (missing columns) as [|c l] eqn:Hm; cbv zeta.
  - apply missing_nil_iff in Hm.
    destruct (import_rows_count uid al rows s 0) as [H1 H2].
    split; [tauto|]. split; [intros _; exact H1|]. lia.
  - assert (Hn : ~ incl required columns).
    { intros H. apply missing_nil_iff in H. congruence. }
    split; [reflexivity|]. split; [tauto|]. simpl. lia.
Qed.

Lemma import_csv_count_witness :
  import_csv None "" ["date"; "distance"; "lpg"] [(diesel_row, false)]
             no_entries
  = (no_entries, 0%nat).
Proof.
  apply (import_csv_count None "" ["date"; "distance"; "lpg"]
                          [(diesel_row, false)] no_entries).
  intros H.
  assert (Hin : In "transport_mode" ["date"; "distance"; "lpg"])
    by (apply H; simpl; auto).
  simpl in Hin. destruct Hin as [E|[E|[E|[]]]]; discriminate.
Defined.

(** X7. A row whose date or one of whose quantities does not convert is
    skipped and changes nothing for the rows around it: the import gives
    the stores and the count it gives without that row. *)
Theorem import_csv_skips_bad_row (uid : option string) (al : string)
        (columns : list string) (rows1 rows2 : list (CsvRow * bool))
        (row : CsvRow) (accepted : bool) (s : Stores) :
  csv_date row = None \/ csv_distance row = None
  \/ csv_electricity row = None \/ csv_lpg row = None ->
  import_csv uid al columns (rows1 ++ (row, accepted) :: rows2) s
  = import_csv uid al columns (rows1 ++ rows2) s.
Proof.
  intros Hbad.
  assert (Hrec : csv_record uid al row = None).
  { unfold csv_record.
    destruct (csv_date row), (csv_distance row), (csv_electricity row),
      (csv_lpg row); try reflexivity;
      destruct Hbad as [H|[H|[H|H]]]; discriminate. }
  unfold import_csv. destruct (missing columns); [|reflexivity].
  generalize 0%nat. revert s.
  induction rows1 as [|[r a] rows1 IH]; intros s count; simpl.
  - now rewrite Hrec.
  - destruct (csv_record uid al r); apply IH.
Qed.

Lemma import_csv_skips_bad_row_witness :
  import_csv None "" required [(bad_row, false); (diesel_row, false)]
             no_entries
  = import_csv None "" required [(diesel_row, false)] no_entries.
Proof.
  apply (import_csv_skips_bad_row None "" required [] [(diesel_row, false)]
                                  bad_row false no_entries).
  right; left. reflexivity.
Defined.

(* ================================================================== *)
(** * Further properties of [page_goals_and_alerts] *)

Lemma filter_map_update {A : Type} (p : A -> bool) (upd : A -> A)
      (l : list A) :
  (forall x, p (upd x) = p x) ->
  filter p (map upd l) = map upd (filter p l).
Proof.
  intros Hp. induction l as [|x l IH]; simpl; [reflexivity|].
  rewrite Hp. destruct (p x); simpl; now rewrite IH.
Qed.

(** X8. A saved target is read back: after a save by a session whose user
    id is set, the lookup for that user returns the saved target, whatever
    the table held before; the next run shows it in the untouched widget,
    unless it is zero, which shows as 20.0. *)
Theorem saved_target_is_read_back (table : list Entry) (today : Date)
        (goals : list GoalRow) (u : string) (typed : option Q) :
  u <> "" ->
  let target :=
    number_input typed
      (or_default (select_weekly_target goals (Some u)) 20.0) in
  let goals' := save_click table today goals (Some u, typed) in
  current_target goals' (Some u) = Some target
  /\ view_target (page_goals_and_alerts goals' table (Some u) None false
                                        today)
     = if Qeq_bool target 0 then 20.0 else target.
Proof.
  intros Hu target goals'.
  assert (Hcur : current_target goals' (Some u) = Some target).
  { unfold current_target. rewrite (truthy_Some u Hu).
    subst goals'. rewrite save_click_eq. cbn [fst snd].
    unfold current_target. rewrite (truthy_Some u Hu).
    fold target. unfold save_target, select_weekly_target.
    destruct (filter (fun r => sql_eq (goal_user_id r) (Some u)) goals)
      as [|r rest] eqn:Hf.
    - rewrite filter_app, Hf. simpl. now rewrite String.eqb_refl.
    - rewrite filter_map_update.
      + rewrite Hf. simpl.
        assert (Hr : In r (filter (fun r => sql_eq (goal_user_id r)
                                                   (Some u)) goals))
          by (rewrite Hf; simpl; auto).
        apply filter_In in Hr. destruct Hr as [_ Hr].
        now rewrite Hr.
      + intros x. destruct (sql_eq (goal_user_id x) (Some u)) eqn:E;
          simpl; [exact E|reflexivity || exact E]. }
  split; [exact Hcur|].
  unfold page_goals_and_alerts. cbn [view_target].
  rewrite Hcur. reflexivity.
Qed.

Lemma saved_target_is_read_back_witness :
  current_target
    (save_click [] wednesday [mkGoal guest 12; mkGoal None 3]
                (guest, Some 15))
    guest
  = Some 15.
Proof.
  apply (saved_target_is_read_back [] wednesday
                                   [mkGoal guest 12; mkGoal None 3]
                                   "guest-4242" (Some 15)).
  discriminate.
Defined.

(** X9. A save never changes what the lookup returns for another user:
    the goals of the users other than the session's are left alone. *)
Theorem save_keeps_other_goals (table : list Entry) (today : Date)
        (goals : list GoalRow) (c : option string * option Q) (v : string) :
  fst c <> Some v ->
  select_weekly_target (save_click table today goals c) (Some v)
  = select_weekly_target goals (Some v).
Proof.
  intros Hne. rewrite save_click_eq. destruct c as [uid typed].
  cbn [fst snd] in *. unfold select_weekly_target.
  assert (Hnew : forall r, goal_user_id r = uid \/
                           sql_eq (goal_user_id r) uid = true ->
                           sql_eq (goal_user_id r) (Some v) = false).
  { intros r Hr.
    assert (Hg : goal_user_id r = uid).
    { destruct Hr as [H|H]; [exact H|].
      apply sql_eq_true_iff in H. destruct H as [w [H1 H2]]. congruence. }
    rewrite Hg. destruct uid as [w|]; [|reflexivity].
    simpl. apply String.eqb_neq. congruence. }
  assert (Hfil : forall cur target,
             filter (fun r => sql_eq (goal_user_id r) (Some v))
                    (save_target goals uid cur target)
             = filter (fun r => sql_eq (goal_user_id r) (Some v)) goals).
  { intros cur target. unfold save_target. destruct cur as [cur|].
    - induction goals as [|r goals IH]; simpl; [reflexivity|].
      destruct (sql_eq (goal_user_id r) uid) eqn:Hr.
      + simpl. rewrite (Hnew r (or_intror Hr)). exact IH.
      + now rewrite IH.
    - rewrite filter_app. cbn [filter goal_user_id].
      pose proof (Hnew (mkGoal uid target) (or_introl eq_refl)) as Hn.
      cbn [goal_user_id] in Hn. rewrite Hn.
      apply app_nil_r. }
  now rewrite Hfil.
Qed.

Lemma save_keeps_other_goals_witness :
  select_weekly_target
    (save_click [] wednesday [mkGoal guest 12; mkGoal (Some "guest-7") 3]
                (guest, Some 15))
    (Some "guest-7")
  = Some 3.
Proof.
  apply (save_keeps_other_goals [] wednesday
           [mkGoal guest 12; mkGoal (Some "guest-7") 3]
           (guest, Some 15) "guest-7").
  discriminate.
Defined.

Lemma sort_nil_iff {A : Type} (leb : A -> A -> bool) (l : list A) :
  Pandas.sort leb l = [] <-> l = [].
Proof.
  split; [|now intros ->].
  intros H. pose proof (sort_length leb l) as Hl. rewrite H in Hl.
  destruct l; [reflexivity|discriminate].
Qed.

Lemma filter_nil_iff {A : Type} (p : A -> bool) (l : list A) :
  filter p l = [] <-> forall x, In x l -> p x = false.
Proof.
  induction l as [|y l IH]; simpl.
  - split; [intros _ x []|reflexivity].
  - destruct (p y) eqn:Hy.
    + split; [discriminate|]. intros H.
      specialize (H y (or_introl eq_refl)). congruence.
    + rewrite IH. split.
      * intros H x [<-|Hx]; auto.
      * intros H x Hx. apply H. now right.
Qed.

(** X10. The page shows no weekly check (and no weekly total) exactly
    when the frame is empty: for a user id that is set, when the table has
    no row of that user; without a user id, when the table has no row at
    all. *)
Theorem weekly_check_hidden_iff (goals : list GoalRow) (table : list Entry)
        (uid : option string) (typed : option Q) (save_clicked : bool)
        (today : Date) :
  view_check (page_goals_and_alerts goals table uid typed save_clicked today)
  = None
  <-> if truthy uid
      then forall r, In r table -> user_id r <> uid
      else table = [].
Proof.
  rewrite page_check_is_goal_status.
  assert (He : forall df : list Entry,
             (if Pandas.empty df then None
              else Some (weekly_total today df,
                         goal_status (weekly_total today df)
                           (view_target (page_goals_and_alerts
                                           goals table uid typed
                                           save_clicked today))))
             = None <-> df = []).
  { intros [|r df]; simpl; split; congruence. }
  rewrite He. unfold fetch_all_local_for_user, order_by_date.
  destruct (truthy uid) eqn:Hu; rewrite sort_nil_iff; [|reflexivity].
  rewrite filter_nil_iff. split.
  - intros H r Hr Heq. specialize (H r Hr).
    destruct uid as [u|]; [|discriminate].
    rewrite Heq in H. simpl in H. rewrite String.eqb_refl in H.
    discriminate.
  - intros H r Hr. destruct (sql_eq (user_id r) uid) eqn:E; [|reflexivity].
    exfalso. apply (H r Hr).
    apply sql_eq_true_iff in E. destruct E as [u [H1 H2]]. congruence.
Qed.

(** X11. Every entry of the weekly goal window is also in the leaderboard
    window.  On a Monday the goal window is the single day [today]; on a
    Sunday it is the seven days ending [today]. *)
Theorem goal_window_in_leaderboard_window (today : Date) (r : Entry) :
  (in_week today r = true -> in_last_7_days today r = true)
  /\ (weekday today = 0%Z ->
      (in_week today r = true <-> toordinal (date r) = toordinal today))
  /\ (weekday today = 6%Z ->
      (in_week today r = true
       <-> (toordinal today - 6 <= toordinal (date r) <= toordinal today)%Z)).
Proof.
  rewrite in_week_iff, in_last_7_days_iff.
  assert (Hw : (0 <= weekday today < 7)%Z)
    by (unfold weekday; apply Z.mod_pos_bound; lia).
  repeat split; intros; lia.
Qed.

Lemma goal_window_in_leaderboard_window_witness :
  in_last_7_days wednesday (entry_on (mkDate 2026 11 2) 1) = true.
Proof.
  apply (proj1 (goal_window_in_leaderboard_window
                  wednesday (entry_on (mkDate 2026 11 2) 1))).
  reflexivity.
Defined.

Lemma sum_col_nonneg {A : Type} (col : A -> Q) (df : list A) :
  (forall r, In r df -> 0 <= col r) -> 0 <= Pandas.sum_col col df.
Proof.
  induction df as [|r df IH]; intros H.
  - rewrite sum_col_nil. lra.
  - rewrite sum_col_cons.
    assert (0 <= col r) by (apply H; simpl; auto).
    assert (0 <= Pandas.sum_col col df) by (apply IH; intros; apply H; simpl; auto).
    lra.
Qed.

Lemma sum_col_at_least {A : Type} (col : A -> Q) (df : list A) (r : A) :
  (forall x, In x df -> 0 <= col x) ->
  In r df -> col r <= Pandas.sum_col col df.
Proof.
  induction df as [|x df IH]; intros H Hr; [contradiction|].
  rewrite sum_col_cons.
  assert (Hx : 0 <= col x) by (apply H; simpl; auto).
  assert (Hdf : 0 <= Pandas.sum_col col df)
    by (apply sum_col_nonneg; intros; apply H; simpl; auto).
  destruct Hr as [<-|Hr].
  - lra.
  - assert (col r <= Pandas.sum_col col df)
      by (apply IH; [intros; apply H; simpl; auto|exact Hr]).
    lra.
Qed.

(** X12. When no entry of the frame has a negative total, the weekly
    total is not negative and is at least the total of every entry dated in
    the week; so an entry of the week that alone is above the target makes
    the check report [EXCEEDED]. *)
Theorem weekly_total_at_least_each_entry (today : Date) (df : list Entry) :
  (forall r, In r df -> 0 <= total_emission r) ->
  0 <= weekly_total today df
  /\ forall r,
      In r df ->
      (toordinal today - weekday today <= toordinal (date r)
       <= toordinal today)%Z ->
      total_emission r <= weekly_total today df
      /\ forall target,
          target < total_emission r ->
          goal_status (weekly_total today df) target = EXCEEDED.
Proof.
  intros H. unfold weekly_total, week_df.
  assert (Hw : forall x, In x (filter (in_week today) df) ->
                         0 <= total_emission x).
  { intros x Hx. apply filter_In in Hx. now apply H. }
  split; [now apply sum_col_nonneg|].
  intros r Hr Hin.
  assert (Hle : total_emission r
                <= Pandas.sum_col total_emission
                     (filter (in_week today) df)).
  { apply sum_col_at_least; [exact Hw|].
    apply filter_In. split; [exact Hr|]. now apply in_week_iff. }
  split; [exact Hle|].
  intros target Ht. unfold goal_status.
  destruct (Qlt_le_dec target _) as [_|Hge]; [reflexivity|].
  exfalso. lra.
Qed.

Lemma weekly_total_at_least_each_entry_witness :
  goal_status
    (weekly_total wednesday
       [entry_on (mkDate 2026 11 1) 7; entry_on (mkDate 2026 11 2) 25;
        entry_on wednesday 1])
    20
  = EXCEEDED.
Proof.
  apply (weekly_total_at_least_each_entry wednesday
           [entry_on (mkDate 2026 11 1) 7; entry_on (mkDate 2026 11 2) 25;
            entry_on wednesday 1])
    with (r := entry_on (mkDate 2026 11 2) 25).
  - intros r [<-|[<-|[<-|[]]]]; unfold Qle; simpl; lia.
  - simpl; auto.
  - vm_compute. split; discriminate.
  - reflexivity.
Defined.

(* ================================================================== *)
(** * Further properties of [page_history] *)

(** X13. On a frame with rows line 258 raises [TypeError] with pandas
    from 2.0 on.  Where the sum leaves the non-numeric columns out (pandas
    before 2.0) it returns the rollup: months in strictly increasing order,
    hence one row per month; a row for a month exactly when the frame has
    an entry of that month; the row holds the sums over the entries of that
    month. *)
Theorem monthly_sum_rows (df : list Entry) :
  monthly_sum pandas_from_2 df = Raises_TypeError
  /\ exists rows,
      monthly_sum pandas_before_2 df = Returns rows
      /\ StronglySorted Z.lt (map fst rows)
      /\ forall p s,
          In (p, s) rows
          <-> (exists r, In r df /\ to_period_M (date r) = p)
              /\ s = sums (filter (fun r => (to_period_M (date r) =? p)%Z)
                                  df).
Proof.
  split; [reflexivity|].
  exists (monthly_rollup df). split; [reflexivity|].
  split; [apply monthly_rollup_chronological|].
  intros p s. unfold monthly_rollup. rewrite groupby_agg_In.
  unfold Pandas.get_group.
  rewrite (filter_ext _ _ (in_group_period_eqb p)).
  unfold period_of. split.
  - intros [[r [Hr Hp]] ->]. split; [|reflexivity].
    exists r. split; [exact Hr|congruence].
  - intros [[r [Hr Hp]] ->]. split; [|reflexivity].
    exists r. split; [exact Hr|congruence].
Qed.

(* ================================================================== *)
(** * The most recent rows: [tail] *)

Lemma tail_length {A : Type} (n : nat) (df : list A) :
  List.length (Pandas.tail n df) = Nat.min n (List.length df).
Proof. unfold Pandas.tail. rewrite length_skipn. lia. Qed.

Lemma tail_split {A : Type} (n : nat) (df : list A) :
  df = (firstn (List.length df - n) df ++ Pandas.tail n df)%list.
Proof. unfold Pandas.tail. symmetry. apply firstn_skipn. Qed.

Lemma StronglySorted_app_inv {A : Type} (R : A -> A -> Prop)
      (l1 l2 : list A) :
  StronglySorted R (l1 ++ l2) ->
  StronglySorted R l2 /\ forall x y, In x l1 -> In y l2 -> R x y.
Proof.
  induction l1 as [|a l1 IH]; simpl; intros Hs.
  - split; [exact Hs|]. intros x y [].
  - inversion Hs as [|? ? Hs' Hall]; subst.
    destruct (IH Hs') as [H2 Hxy]. split; [exact H2|].
    intros x y [<-|Hx] Hy.
    + rewrite Forall_forall in Hall. apply Hall.
      apply in_or_app. now right.
    + now apply Hxy.
Qed.

(** The last [n] rows of a frame in ascending date order: the frame is
    some older rows followed by them, and no older row is dated later. *)
Lemma tail_most_recent (n : nat) (df : list Entry) :
  StronglySorted
    (fun r1 r2 => (toordinal (date r1) <= toordinal (date r2))%Z) df ->
  exists older,
    df = (older ++ Pandas.tail n df)%list
    /\ StronglySorted
         (fun r1 r2 => (toordinal (date r1) <= toordinal (date r2))%Z)
         (Pandas.tail n df)
    /\ forall o r, In o older -> In r (Pandas.tail n df) ->
                   (toordinal (date o) <= toordinal (date r))%Z.
Proof.
  intros Hs. exists (firstn (List.length df - n) df).
  split; [apply tail_split|].
  rewrite (tail_split n df) in Hs at 1.
  now apply StronglySorted_app_inv in Hs.
Qed.


(* ================================================================== *)
(** * [page_insights] *)

(** X18. Tips are requested only when the service is configured and the
    button is pressed; the request then lists the 7 most recent entries of
    the frame (all of them when there are fewer), oldest first, each with
    its own date and total. *)
Theorem page_insights_tips (table : list Entry) (uid : option string)
        (available clicked : bool) (ins : Insights) :
  page_insights table uid available clicked = Some ins ->
  let df := fetch_all_local_for_user table uid in
  (available && clicked = false -> tips_summary ins = None)
  /\ (available && clicked = true ->
      exists older recent,
        df = (older ++ recent)%list
        /\ List.length recent = Nat.min 7 (List.length df)
        /\ tips_summary ins
           = Some (map (fun r => (date r, total_emission r)) recent)
        /\ forall o r, In o older -> In r recent ->
                       (toordinal (date o) <= toordinal (date r))%Z).
Proof.
  intros Hpage df. unfold page_insights in Hpage. fold df in Hpage.
  destruct (Pandas.empty df); [discriminate|].
  inversion Hpage; subst ins; clear Hpage. cbn [tips_summary].
  assert (Hs : StronglySorted
                 (fun r1 r2 => (toordinal (date r1)
                                <= toordinal (date r2))%Z) df).
  { subst df. unfold fetch_all_local_for_user.
    destruct (truthy uid); apply order_by_date_sorted. }
  split.
  - destruct available, clicked; simpl; intros H; congruence.
  - intros Hb. apply andb_true_iff in Hb. destruct Hb as [-> ->].
    destruct (tail_most_recent 7 df Hs) as [older [Hsplit [_ Hold]]].
    exists older, (Pandas.tail 7 df).
    split; [exact Hsplit|]. split; [apply tail_length|].
    split; [reflexivity|exact Hold].
Qed.

Lemma page_insights_tips_witness :
  option_map tips_summary
             (page_insights [entry_on wednesday 5] None false true)
  = Some None.
Proof.
  destruct (page_insights [entry_on wednesday 5] None false true)
    as [ins|] eqn:E.
  - simpl. f_equal.
    apply (page_insights_tips [entry_on wednesday 5] None false true ins E).
    reflexivity.
  - vm_compute in E. discriminate E.
Defined.

(* ================================================================== *)
(** * [supabase_sign_in_ui] *)

(** The sessions the sidebar can produce. *)
Lemma sign_in_runs_cases (supabase : bool) (pid : nat)
      (ws : list SignInWidgets) (ss : Session) :
  ss = fresh_session
  \/ ss = mkSession (Some None) (Some None)
  \/ ss = mkSession (Some (Some (mkUser (guest_id pid) None)))
                    (Some (Some (guest_id pid))) ->
  let ss' := sign_in_runs supabase pid ws ss in
  ss' = fresh_session
  \/ ss' = mkSession (Some None) (Some None)
  \/ ss' = mkSession (Some (Some (mkUser (guest_id pid) None)))
                     (Some (Some (guest_id pid))).
Proof.
  unfold sign_in_runs. revert ss.
  induction ws as [|w ws IH]; intros ss Hss; simpl; [exact Hss|].
  apply IH. unfold supabase_sign_in_ui.
  destruct supabase; simpl; [|exact Hss].
  destruct Hss as [-> | [-> | ->]]; simpl;
    destruct (continue_as_guest w), (sign_out w); auto.
Qed.

Lemma sign_in_runs_unconfigured (pid : nat) (ws : list SignInWidgets)
      (ss : Session) :
  sign_in_runs false pid ws ss = ss.
Proof.
  unfold sign_in_runs. revert ss.
  induction ws as [|w ws IH]; intros ss; simpl; [reflexivity|apply IH].
Qed.

Lemma guest_id_truthy (pid : nat) : truthy (Some (guest_id pid)) = true.
Proof. reflexivity. Qed.

(** X19. Whatever is typed and clicked in the sidebar, over any number
    of runs from a fresh session: without a Supabase client the session is
    never written, so the pages run without a user id; with a client the
    user id is either unset or the guest id of the process, which is not
    empty.  In particular sending a magic link never signs anyone in. *)
Theorem sign_in_user_id (supabase : bool) (pid : nat)
        (ws : list SignInWidgets) :
  let ss := sign_in_runs supabase pid ws fresh_session in
  (supabase = false -> ss = fresh_session /\ session_user_id ss = None)
  /\ (session_user_id ss = None
      \/ session_user_id ss = Some (guest_id pid))
  /\ (forall u, session_user_id ss = Some u -> u <> "")
  /\ (forall w,
         supabase = true -> continue_as_guest w = true ->
         session_user_id ss = None ->
         session_user_id (supabase_sign_in_ui supabase pid w ss)
         = Some (guest_id pid))
  /\ (forall w,
         sign_out w = true ->
         session_user_id ss = Some (guest_id pid) ->
         session_user_id (supabase_sign_in_ui supabase pid w ss) = None).
Proof.
  intros ss.
  assert (Hc := sign_in_runs_cases supabase pid ws fresh_session
                                   (or_introl eq_refl)).
  fold ss in Hc. cbv zeta in Hc.
  split; [|split; [|split; [|split]]].
  - intros ->. subst ss. rewrite sign_in_runs_unconfigured.
    split; reflexivity.
  - destruct Hc as [-> | [-> | ->]]; simpl; auto.
  - intros u Hu. destruct Hc as [Hc|[Hc|Hc]]; rewrite Hc in Hu;
      simpl in Hu; try discriminate.
    inversion Hu; subst. discriminate.
  - intros w -> Hg Hn. unfold supabase_sign_in_ui.
    destruct Hc as [Hc|[Hc|Hc]]; rewrite Hc in *; simpl in *;
      try rewrite Hg; try reflexivity; discriminate.
  - intros w Ho Hs. unfold supabase_sign_in_ui.
    destruct Hc as [Hc|[Hc|Hc]]; rewrite Hc in *; simpl in *;
      try discriminate.
    destruct supabase; simpl.
    + now rewrite Ho.
    + exfalso. subst ss. rewrite sign_in_runs_unconfigured in Hc.
      discriminate.
Qed.

Lemma sign_in_user_id_witness :
  session_user_id
    (sign_in_runs false 4242
                  [mkSignInWidgets "a@b.c" true true false;
                   mkSignInWidgets "" false true false]
                  fresh_session)
  = None.
Proof.
  apply (proj1 (sign_in_user_id false 4242
                  [mkSignInWidgets "a@b.c" true true false;
                   mkSignInWidgets "" false true false])).
  reflexivity.
Defined.

Example sign_in_guest_then_out :
  map (fun ws => session_user_id (sign_in_runs true 4242 ws fresh_session))
      [[mkSignInWidgets "a@b.c" true false false];
       [mkSignInWidgets "" false true false];
       [mkSignInWidgets "" false true false;
        mkSignInWidgets "" false false true]]
  = [None; Some "guest-4242"; None].
Proof. reflexivity. Qed.

(* ================================================================== *)
(** * The stores only grow *)

(** X20. No save and no import ever changes or removes a stored entry:
    after any sequence of actions each store is what it was, followed by
    the entries added since. *)
Theorem run_appends (actions : list Action) (s : Stores) :
  exists more_remote more_local,
    supabase_rows (run actions s) = (supabase_rows s ++ more_remote)%list
    /\ sqlite_rows (run actions s) = (sqlite_rows s ++ more_local)%list.
Proof.
  unfold run. revert s. induction actions as [|a actions IH]; intros s; simpl.
  - exists [], []. now rewrite !app_nil_r.
  - destruct (IH (step s a)) as [mr [ml [Hr Hl]]].
    destruct (step_appends s a) as [mr0 [ml0 [Hr0 Hl0]]].
    exists (mr0 ++ mr)%list, (ml0 ++ ml)%list.
    rewrite Hr, Hl, Hr0, Hl0. now rewrite !app_assoc.
Qed.
